(** * commodities-pulse: the analytics core and the TTL cache

    A shallow embedding of [src/fetchers/alpha-vantage.ts] (the catalog, the
    fetchers and the derivation of the analysis) and of the cache module
    that [src/index.ts] imports as [./cache], followed by the properties the
    specification states about them.

    Conventions of the embedding.
    - A JavaScript [number] is a carrier [num] with the operations the code
      applies to it ([JsNumber]).  What only depends on which operations
      are applied to which elements is proved for every such carrier;
      [Binary64] instantiates it with IEEE 754 doubles, on which the code
      is run on concrete series.  Timestamps and durations, which are whole
      milliseconds, are integers.
    - An [async] function is a computation [M W A] over a world [W] (the
      provider, the clock, the timers): it returns a value or throws, and
      leaves a new world.  Every [await] is a bind; one request is followed
      from its start to its end.
    - The objects used as dictionaries are association lists where the key
      order matters ([COMMODITIES]) and [gmap]s where it does not (the
      result of [fetchAllCommodities], the store of the cache).
    - The body of a response is text that is not JSON, the JSON value
      [null], or a payload, which is read at its declared type
      [CommodityData] with a series that may be missing; symbols are
      ASCII strings. *)

From Stdlib Require Import ZArith String Ascii List Lia.
From Stdlib Require Import Floats.PrimFloat Floats.SpecFloat Floats.FloatOps Floats.FloatAxioms.
From Stdlib Require Uint63.
From stdpp Require Import gmap strings list pretty.

Local Open Scope string_scope.
Local Open Scope list_scope.
Local Open Scope Z_scope.

(** ** JavaScript numbers *)

(** The operations of [number] the two files use.  [num_of_Z] reads an
    integer literal or an array length; [NaN] is what arithmetic on an
    out-of-range array read yields. *)
Class JsNumber (num : Type) := {
  num_of_Z : Z -> num;
  NaN : num;
  num_add : num -> num -> num;
  num_sub : num -> num -> num;
  num_mul : num -> num -> num;
  num_div : num -> num -> num;
  num_lt : num -> num -> bool;
  Math_round : num -> num;
  Math_sqrt : num -> num;
  Math_pow : num -> num -> num;
  parseFloat : string -> num;
}.

Declare Scope js_scope.
Delimit Scope js_scope with js.
Notation "a + b" := (num_add a b) : js_scope.
Notation "a - b" := (num_sub a b) : js_scope.
Notation "a * b" := (num_mul a b) : js_scope.
Notation "a / b" := (num_div a b) : js_scope.
Notation "a <? b" := (num_lt a b) : js_scope.
Notation "a >? b" := (num_lt b a) (only parsing) : js_scope.
Notation "# z" := (num_of_Z z%Z) (at level 1, format "# z") : js_scope.

(** ** Data model *)

Module RawSeriesPoint.
Record t := mk { date : string; value : string }.
End RawSeriesPoint.

(** [CommodityData]: the provider's JSON payload.  [data] is absent in the
    payloads that carry a note or an error message instead of a series,
    which is what the guard [!data.data] is for. *)
Module CommodityData.
Record t := mk {
  name : string;
  interval : string;
  unit : string;
  data : option (list RawSeriesPoint.t);
}.
End CommodityData.

Module CommodityPrice.
Record t (num : Type) := mk {
  name : string;
  price : num;
  unit : string;
  date : string;
  interval : string;
}.
Arguments mk {num}.
Arguments name {num}.
Arguments price {num}.
Arguments unit {num}.
Arguments date {num}.
Arguments interval {num}.
End CommodityPrice.

Module HistoricalPoint.
Record t (num : Type) := mk { date : string; price : num }.
Arguments mk {num}.
Arguments date {num}.
Arguments price {num}.
End HistoricalPoint.

Inductive VolatilityLevel := low | medium | high | unknown_level.
Inductive Signal := above | below | at_ma | unknown_signal.
Inductive Trend := bullish | bearish | neutral | unknown_trend.

Module CommodityAnalysis.
Record current_t (num : Type) := mk_current {
  price : num;
  unit : string;
  date : string;
}.
Record changes_t (num : Type) := mk_changes {
  day7 : option num;
  day30 : option num;
  day90 : option num;
}.
Record movingAverages_t (num : Type) := mk_movingAverages {
  ma7 : option num;
  ma30 : option num;
}.
Record volatility_t (num : Type) := mk_volatility {
  daily : option num;
  level : VolatilityLevel;
}.
Record signal_t := mk_signal {
  vs7dma : Signal;
  vs30dma : Signal;
  trend : Trend;
}.
Record t (num : Type) := mk {
  commodity : string;
  name : string;
  category : string;
  current : current_t num;
  changes : changes_t num;
  movingAverages : movingAverages_t num;
  volatility : volatility_t num;
  signal : signal_t;
}.
Arguments mk_current {num}.
Arguments price {num}.
Arguments unit {num}.
Arguments date {num}.
Arguments mk_changes {num}.
Arguments day7 {num}.
Arguments day30 {num}.
Arguments day90 {num}.
Arguments mk_movingAverages {num}.
Arguments ma7 {num}.
Arguments ma30 {num}.
Arguments mk_volatility {num}.
Arguments daily {num}.
Arguments level {num}.
Arguments mk {num}.
Arguments commodity {num}.
Arguments name {num}.
Arguments category {num}.
Arguments current {num}.
Arguments changes {num}.
Arguments movingAverages {num}.
Arguments volatility {num}.
Arguments signal {num}.
End CommodityAnalysis.

(** ** The symbol catalog *)

(** [COMMODITIES], in the order of the object literal ([Object.keys] lists
    string keys in insertion order). *)
Definition COMMODITIES : list (string * string) :=
  [ ("wti", "WTI");
    ("brent", "BRENT");
    ("natural_gas", "NATURAL_GAS");
    ("copper", "COPPER");
    ("aluminum", "ALUMINUM");
    ("wheat", "WHEAT");
    ("corn", "CORN");
    ("coffee", "COFFEE");
    ("cotton", "COTTON");
    ("sugar", "SUGAR");
    ("all", "ALL_COMMODITIES") ].

Record CommodityInfo := mk_info { info_category : string; info_description : string }.

Definition COMMODITY_INFO : list (string * CommodityInfo) :=
  [ ("wti", mk_info "Energy" "West Texas Intermediate Crude Oil");
    ("brent", mk_info "Energy" "Brent Crude Oil");
    ("natural_gas", mk_info "Energy" "Henry Hub Natural Gas");
    ("copper", mk_info "Metals" "Global Copper");
    ("aluminum", mk_info "Metals" "Global Aluminum");
    ("wheat", mk_info "Agriculture" "Global Wheat");
    ("corn", mk_info "Agriculture" "Global Corn");
    ("coffee", mk_info "Agriculture" "Global Coffee (Arabica)");
    ("cotton", mk_info "Agriculture" "Global Cotton");
    ("sugar", mk_info "Agriculture" "Global Sugar") ].

(** [obj[key]] on an object literal: the value of the own property [key],
    [undefined] ([None]) without one.  Symbols are ASCII strings; the
    properties every object inherits are not part of the catalog and are
    not modelled. *)
Fixpoint prop_get {A : Type} (obj : list (string * A)) (key : string) : option A :=
  match obj with
  | [] => None
  | (k, v) :: rest => if String.eqb k key then Some v else prop_get rest key
  end.

Definition Object_keys {A : Type} (obj : list (string * A)) : list string :=
  map fst obj.

(** [String.prototype.toLowerCase] on ASCII text. *)
Definition lower_ascii (c : ascii) : ascii :=
  let n := nat_of_ascii c in
  if ((65 <=? n) && (n <=? 90))%nat then ascii_of_nat (n + 32) else c.

Fixpoint toLowerCase (s : string) : string :=
  match s with
  | EmptyString => EmptyString
  | String c rest => String (lower_ascii c) (toLowerCase rest)
  end.

(** ** The analysis derivation (alpha-vantage.ts, lines 305-346) *)

Section Analytics.
Context {num : Type} `{JsNumber num}.
Local Open Scope js_scope.

(** [arr[i]]: the element, or [undefined], which every arithmetic
    operation turns into [NaN]. *)
Definition js_index (arr : list num) (i : nat) : num :=
  match nth_error arr i with
  | Some x => x
  | None => NaN
  end.

(** [arr.reduce(f, init)]: a fold from the left. *)
Definition reduce {A B : Type} (f : B -> A -> B) (init : B) (arr : list A) : B :=
  fold_left f arr init.

Definition num_of_nat (n : nat) : num := num_of_Z (Z.of_nat n).

Definition calculateChange (current previous : num) : num :=
  ((current - previous) / previous) * #100.

(** [calculateMA] is module-private and called with the literals 7 and
    30: [period] is a count. *)
Definition calculateMA (prices : list num) (period : nat) : option num :=
  if (length prices <? period)%nat then None
  else
    let slice := firstn period prices in
    Some (reduce (fun a b => a + b) #0 slice / num_of_nat period).

(** The loop of [calculateVolatility]:
    [for (let i = 1; i < bound; i++) returns.push(...)].  [fuel] bounds
    the number of iterations; [bound] iterations always suffice. *)
Fixpoint returns_loop (fuel : nat) (prices : list num) (bound i : nat)
    (returns : list num) : list num :=
  match fuel with
  | O => returns
  | S fuel' =>
      if (i <? bound)%nat then
        returns_loop fuel' prices bound (S i)
          (returns ++ [(js_index prices (i - 1) - js_index prices i) / js_index prices i])
      else returns
  end.

Definition daily_returns (prices : list num) : list num :=
  let bound := Nat.min (length prices) 30 in
  returns_loop bound prices bound 1%nat [].

Definition calculateVolatility (prices : list num) : option num :=
  if (length prices <? 7)%nat then None
  else
    let returns := daily_returns prices in
    let mean := reduce (fun a b => a + b) #0 returns / num_of_nat (length returns) in
    let variance :=
      reduce (fun sum r => sum + Math_pow (r - mean) #2) #0 returns
      / num_of_nat (length returns) in
    Some (Math_sqrt variance * #100).

Definition getVolatilityLevel (vol : option num) : VolatilityLevel :=
  match vol with
  | None => unknown_level
  | Some v => if v <? #1 then low else if v <? #3 then medium else high
  end.

Definition getSignal (current : num) (ma : option num) : Signal :=
  match ma with
  | None => unknown_signal
  | Some m =>
      let diff := ((current - m) / m) * #100 in
      if diff >? #1 then above
      else if diff <? #(-1) then below
      else at_ma
  end.

Definition getTrend (change7 change30 : option num) : Trend :=
  match change7, change30 with
  | Some c7, Some c30 =>
      if (c7 >? #2) && (c30 >? #0) then bullish
      else if (c7 <? #(-2)) && (c30 <? #0) then bearish
      else neutral
  | _, _ => unknown_trend
  end.

(** [x !== null ? Math.round(x * 100) / 100 : null], the rounding to two
    decimals applied to every reported figure. *)
Definition round2 (x : num) : num := Math_round (x * #100) / #100.

Definition round2_opt (x : option num) : option num :=
  match x with
  | Some v => Some (round2 v)
  | None => None
  end.

End Analytics.

(** ** Asynchronous computations *)

(** A settled promise: fulfilled with a value, or rejected with an [Error]
    of which the code only ever reads the [message]. *)
Inductive Outcome (A : Type) :=
  | Ok (a : A)
  | Throw (message : string).
Arguments Ok {A}.
Arguments Throw {A}.

Definition M (W A : Type) : Type := W -> Outcome A * W.

Definition ret {W A : Type} (a : A) : M W A := fun w => (Ok a, w).

Definition throw {W A : Type} (message : string) : M W A := fun w => (Throw message, w).

Definition bind {W A B : Type} (m : M W A) (k : A -> M W B) : M W B :=
  fun w =>
    match m w with
    | (Ok a, w') => k a w'
    | (Throw e, w') => (Throw e, w')
    end.

(** [try { body } catch (e) { handler(e.message) }] *)
Definition try_catch {W A : Type} (body : M W A) (handler : string -> M W A) : M W A :=
  fun w =>
    match body w with
    | (Ok a, w') => (Ok a, w')
    | (Throw e, w') => handler e w'
    end.

Declare Scope async_scope.
Delimit Scope async_scope with async.
Notation "x <- m ;; k" := (bind m (fun x => k))
  (at level 100, m at next level, right associativity) : async_scope.

(** ** The provider *)

(** The body of a response, as [res.json()] and the fetchers read it: text
    that is not JSON, on which [res.json()] rejects; the JSON value
    [null]; or a payload.  A payload is read at the declared type
    [CommodityData]: its [data] is absent ([None], which also stands for a
    [data] that is falsy and for a JSON value other than [null] that has no
    property [data], such as a number, a string or an array) or an array of
    points whose fields are strings.  A [data] of any other shape is the one
    kind of body left out. *)
Inductive Body :=
  | Malformed (message : string)
  | Json (payload : CommodityData.t)
  | Json_null.

Record Response := mk_response { status : Z; body : Body }.

(** The environment the module runs in: the API key read from the process
    environment, the global [fetch], the timers and the clock. *)
Class World (W : Type) := {
  API_KEY : string;
  fetch : string -> M W Response;
  sleep : Z -> W -> W;
  Date_now : W -> Z;
}.

Definition BASE_URL : string := "https://www.alphavantage.co/query".

(** The message of the [TypeError] that [data.data] throws when [data] is
    [null].  The wording is the engine's: this is the one of JavaScriptCore,
    on which the service runs. *)
Definition null_data_message : string :=
  "null is not an object (evaluating 'data.data')".

Inductive Interval := daily | weekly | monthly.

Definition interval_name (i : Interval) : string :=
  match i with
  | daily => "daily"
  | weekly => "weekly"
  | monthly => "monthly"
  end.

(** [arr.slice(0, end)] for an integer [end]: a negative [end] counts from
    the end of the array. *)
Definition slice0 {A : Type} (arr : list A) (last : Z) : list A :=
  let len := Z.of_nat (length arr) in
  let k := (if last <? 0 then Z.max (len + last) 0 else Z.min last len)%Z in
  firstn (Z.to_nat k) arr.

Inductive PriceOrError (num : Type) :=
  | price_entry (p : CommodityPrice.t num)
  | error_entry (error : string).
Arguments price_entry {num}.
Arguments error_entry {num}.

Record IndexValue (num : Type) := mk_index {
  index_name : string;
  index_value : num;
  index_unit : string;
  index_date : string;
}.
Arguments mk_index {num}.

Section Fetchers.
Context {num : Type} `{JsNumber num} {W : Type} `{World W}.
Local Open Scope async_scope.

Definition query_url (fn interval : string) : string :=
  BASE_URL ++ "?function=" ++ fn ++ "&interval=" ++ interval ++ "&apikey=" ++ API_KEY.

(** [await res.json()]: [None] is the value [null]. *)
Definition Response_json (res : Response) : M W (option CommodityData.t) :=
  match body res with
  | Malformed message => throw message
  | Json payload => ret (Some payload)
  | Json_null => ret None
  end.

(** [await new Promise((r) => setTimeout(r, ms))] *)
Definition delay (ms : Z) : M W unit := fun w => (Ok tt, sleep ms w).

(** [interval] defaults to ['daily']. *)
Definition fetchCommodity (commodity : string) (interval : Interval)
    : M W (option (CommodityPrice.t num)) :=
  match prop_get COMMODITIES (toLowerCase commodity) with
  | None => ret None
  | Some fn =>
      if String.eqb fn EmptyString then ret None
      else
        res <- fetch (query_url fn (interval_name interval)) ;;
        data <- Response_json res ;;
        match data with
        | None => throw null_data_message
        | Some data =>
            match CommodityData.data data with
            | None => ret None
            | Some [] => ret None
            | Some (latest :: _) =>
                ret (Some (CommodityPrice.mk
                             (CommodityData.name data)
                             (parseFloat (RawSeriesPoint.value latest))
                             (CommodityData.unit data)
                             (RawSeriesPoint.date latest)
                             (CommodityData.interval data)))
            end
        end
  end.

(** One iteration of the loop of [fetchAllCommodities]: the [try]/[catch]
    around the fetch of one symbol, then the 200 ms pause. *)
Definition fetchAll_step (interval : Interval) (commodity : string)
    (results : gmap string (PriceOrError num)) : M W (gmap string (PriceOrError num)) :=
  results' <-
    try_catch
      (data <- fetchCommodity commodity interval ;;
       match data with
       | Some d => ret (<[commodity := price_entry d]> results)
       | None => ret (<[commodity := error_entry "No data available"]> results)
       end)
      (fun message => ret (<[commodity := error_entry message]> results)) ;;
  _ <- delay 200 ;;
  ret results'.

Fixpoint fetchAll_loop (interval : Interval) (commodities : list string)
    (results : gmap string (PriceOrError num)) : M W (gmap string (PriceOrError num)) :=
  match commodities with
  | [] => ret results
  | commodity :: rest =>
      results' <- fetchAll_step interval commodity results ;;
      fetchAll_loop interval rest results'
  end.

(** [Object.keys(COMMODITIES).filter((k) => k !== 'all')] *)
Definition bulk_symbols : list string :=
  List.filter (fun k => negb (String.eqb k "all")) (Object_keys COMMODITIES).

Definition fetchAllCommodities (interval : Interval)
    : M W (gmap string (PriceOrError num)) :=
  fetchAll_loop interval bulk_symbols ∅.

Definition fetchCommoditiesIndex : M W (option (IndexValue num)) :=
  res <- fetch (query_url "ALL_COMMODITIES" "monthly") ;;
  data <- Response_json res ;;
  match data with
  | None => throw null_data_message
  | Some data =>
      match CommodityData.data data with
      | None => ret None
      | Some [] => ret None
      | Some (latest :: _) =>
          ret (Some (mk_index
                       (CommodityData.name data)
                       (parseFloat (RawSeriesPoint.value latest))
                       (CommodityData.unit data)
                       (RawSeriesPoint.date latest)))
      end
  end.

(** [interval] defaults to ['monthly'] and [limit] to 12. *)
Definition fetchHistorical (commodity : string) (interval : Interval) (limit : Z)
    : M W (option (list (HistoricalPoint.t num))) :=
  match prop_get COMMODITIES (toLowerCase commodity) with
  | None => ret None
  | Some fn =>
      if String.eqb fn EmptyString then ret None
      else
        res <- fetch (query_url fn (interval_name interval)) ;;
        data <- Response_json res ;;
        match data with
        | None => throw null_data_message
        | Some data =>
            match CommodityData.data data with
            | None => ret None
            | Some [] => ret None
            | Some series =>
                ret (Some (map (fun d => HistoricalPoint.mk
                                           (RawSeriesPoint.date d)
                                           (parseFloat (RawSeriesPoint.value d)))
                               (slice0 series limit)))
            end
        end
  end.

(** The three percentage changes of [fetchAnalysis] (lines 366-368): the
    change against [prices[k]], computed when [prices.length > k]. *)
Definition change_against (prices : list num) (k : nat) : option num :=
  if (k <? length prices)%nat
  then Some (calculateChange (js_index prices 0) (js_index prices k))
  else None.

(** [info?.category || 'Unknown'] *)
Definition category_of (info : option CommodityInfo) : string :=
  match info with
  | Some i => if String.eqb (info_category i) EmptyString then "Unknown" else info_category i
  | None => "Unknown"
  end.

(** Lines 361-404 of [fetchAnalysis]: everything after the guard on an
    empty series.  [series] is [data.data], [latest] its first point. *)
Definition analyse (commodity : string) (info : option CommodityInfo)
    (data : CommodityData.t) (latest : RawSeriesPoint.t)
    (series : list RawSeriesPoint.t) : CommodityAnalysis.t num :=
  let prices := map (fun d => parseFloat (RawSeriesPoint.value d)) (slice0 series 90) in
  let current := js_index prices 0 in
  let change7 := change_against prices 7 in
  let change30 := change_against prices 30 in
  let change90 := change_against prices 89 in
  let ma7 := calculateMA prices 7 in
  let ma30 := calculateMA prices 30 in
  let volatility := calculateVolatility prices in
  CommodityAnalysis.mk
    (toLowerCase commodity)
    (CommodityData.name data)
    (category_of info)
    (CommodityAnalysis.mk_current current (CommodityData.unit data) (RawSeriesPoint.date latest))
    (CommodityAnalysis.mk_changes (round2_opt change7) (round2_opt change30) (round2_opt change90))
    (CommodityAnalysis.mk_movingAverages (round2_opt ma7) (round2_opt ma30))
    (CommodityAnalysis.mk_volatility (round2_opt volatility) (getVolatilityLevel volatility))
    (CommodityAnalysis.mk_signal
       (getSignal current ma7) (getSignal current ma30) (getTrend change7 change30)).

Definition fetchAnalysis (commodity : string) : M W (option (CommodityAnalysis.t num)) :=
  match prop_get COMMODITIES (toLowerCase commodity) with
  | None => ret None
  | Some fn =>
      if String.eqb fn EmptyString then ret None
      else
        let info := prop_get COMMODITY_INFO (toLowerCase commodity) in
        res <- fetch (query_url fn "daily") ;;
        data <- Response_json res ;;
        match data with
        | None => throw null_data_message
        | Some data =>
            match CommodityData.data data with
            | None => ret None
            | Some [] => ret None
            | Some (latest :: rest) =>
                ret (Some (analyse commodity info data latest (latest :: rest)))
            end
        end
  end.

End Fetchers.

(** ** The cache (cache.ts) *)

Module Cache.

Record CacheEntry (T : Type) := mk_entry {
  data : T;
  timestamp : Z;
  ttlMs : Z;
}.
Arguments mk_entry {T}.
Arguments data {T}.
Arguments timestamp {T}.
Arguments ttlMs {T}.

(** The state a call runs in: the [store] of the cache object and the
    world.  A fetcher is a closure, and while it is awaited other calls may
    run: it is a computation on the whole state. *)
Definition State (W T : Type) : Type := gmap string (CacheEntry T) * W.

Section Methods.
Context {W : Type} `{World W} {T : Type}.
Local Open Scope async_scope.

Definition store_get (key : string) : M (State W T) (option (CacheEntry T)) :=
  fun st => (Ok (fst st !! key), st).

Definition store_set (key : string) (e : CacheEntry T) : M (State W T) unit :=
  fun st => (Ok tt, (<[key := e]> (fst st), snd st)).

Definition now : M (State W T) Z :=
  fun st => (Ok (Date_now (snd st)), st).

(** The path after the [if]: call the fetcher, store, return. *)
Definition refresh (key : string) (fetcher : M (State W T) T) (ttl : Z)
    : M (State W T) T :=
  d <- fetcher ;;
  t <- now ;;
  _ <- store_set key (mk_entry d t ttl) ;;
  ret d.

(** [ttlMs] defaults to 60000. *)
Definition get (key : string) (fetcher : M (State W T) T) (ttl : Z)
    : M (State W T) T :=
  existing <- store_get key ;;
  match existing with
  | Some e =>
      t <- now ;;
      if (t - timestamp e <? ttlMs e)%Z then ret (data e)
      else refresh key fetcher ttl
  | None => refresh key fetcher ttl
  end.

Definition getAge (key : string) : M (State W T) (option Z) :=
  entry <- store_get key ;;
  match entry with
  | None => ret None
  | Some e =>
      t <- now ;;
      ret (Some ((t - timestamp e) / 1000)%Z)
  end.

(** A fetcher that does not touch the cache, such as the fetchers of
    alpha-vantage.ts: it runs on the world alone. *)
Definition external (f : M W T) : M (State W T) T :=
  fun st =>
    match f (snd st) with
    | (r, w') => (r, (fst st, w'))
    end.

(** An entry for [key] exists and [now - entry.createdAt < entry.ttl]. *)
Definition is_fresh (store : gmap string (CacheEntry T)) (key : string) (t : Z) : Prop :=
  exists e : CacheEntry T, store !! key = Some e /\ t - timestamp e < ttlMs e.

(** [count] observes the invocations of [fetcher]: each one adds one to
    it. *)
Definition counts_calls (count : W -> nat) (fetcher : M (State W T) T) : Prop :=
  forall st : State W T, count (snd (snd (fetcher st))) = S (count (snd st)).

End Methods.

End Cache.

(** ** IEEE 754 doubles as the carrier *)

(** JavaScript's [number] is binary64, which is the kernel's [float].  The
    arithmetic, the comparison and the square root are the primitive
    operations.  The three library functions are written out:
    [parseFloat] reads a decimal literal and rounds it to the nearest
    double; [Math.round] rounds to the nearest integer, ties upwards;
    [Math.pow] is only ever applied to the exponent 2 and is given for
    this exponent alone, as the correctly rounded square (the standard
    leaves the last bit of [Math.pow] to the implementation). *)
Module Binary64.

Definition digit_of (c : ascii) : option Z :=
  let n := nat_of_ascii c in
  if ((48 <=? n) && (n <=? 57))%nat then Some (Z.of_nat (n - 48)) else None.

(** Reads the longest run of digits: the number read after [acc], how
    many digits there were, and the rest of the text. *)
Fixpoint read_digits (s : string) (acc : Z) (count : nat) : Z * nat * string :=
  match s with
  | String c rest =>
      match digit_of c with
      | Some d => read_digits rest (10 * acc + d) (S count)
      | None => (acc, count, s)
      end
  | EmptyString => (acc, count, s)
  end.

Definition is_space (c : ascii) : bool :=
  let n := nat_of_ascii c in
  ((n =? 32) || ((9 <=? n) && (n <=? 13)))%nat.

Fixpoint skip_spaces (s : string) : string :=
  match s with
  | String c rest => if is_space c then skip_spaces rest else s
  | EmptyString => s
  end.

Definition read_sign (s : string) : bool * string :=
  match s with
  | String "-" rest => (true, rest)
  | String "+" rest => (false, rest)
  | _ => (false, s)
  end.

(** The exponent part [e[+-]digits], 0 when there is none. *)
Definition read_exponent (s : string) : Z :=
  match s with
  | String c rest =>
      if (Ascii.eqb c "e" || Ascii.eqb c "E")%bool then
        let '(neg, rest') := read_sign rest in
        let '(e, count, _) := read_digits rest' 0 0 in
        match count with
        | O => 0
        | S _ => if neg then - e else e
        end
      else 0
  | EmptyString => 0
  end.

(** A decimal literal [mantissa * 10 ^ exponent], if the text starts with
    one. *)
Definition read_decimal (s : string) : option (Z * Z) :=
  let '(int_part, int_count, rest) := read_digits s 0 0 in
  let '(mantissa, frac_count, rest') :=
    match rest with
    | String "." after => read_digits after int_part 0
    | _ => (int_part, O, rest)
    end in
  match (int_count + frac_count)%nat with
  | O => None
  | S _ => Some (mantissa, read_exponent rest' - Z.of_nat frac_count)
  end.

(** The double nearest to [m * 10 ^ e] (ties to even), [m] positive. *)
Definition nearest_double (negative : bool) (m e : Z) : float :=
  let '(numerator, denominator) :=
    if 0 <=? e then (m * 10 ^ e, 1) else (m, 10 ^ (- e)) in
  let '(q, e2, loc) := SFdiv_core_binary prec emax numerator 0 denominator 0 in
  SF2Prim (binary_round_aux prec emax negative q e2 loc).

Definition starts_with (p s : string) : bool :=
  String.eqb (substring 0 (String.length p) s) p.

Definition parse (text : string) : float :=
  let '(negative, s) := read_sign (skip_spaces text) in
  if starts_with "Infinity" s then (if negative then neg_infinity else infinity)
  else
    match read_decimal s with
    | None => nan
    | Some (0, _) => if negative then neg_zero else zero
    | Some (m, e) => nearest_double negative m e
    end.

Definition of_Z (z : Z) : float :=
  match z with
  | Z0 => zero
  | Zpos _ => nearest_double false z 0
  | Zneg p => nearest_double true (Zpos p) 0
  end.

(** [floor (v + 1/2)] for [v = m * 2 ^ e] with [e < 0], in exact integer
    arithmetic. *)
Definition round_half_up (m e : Z) : Z := (2 * m + 2 ^ (- e)) / 2 ^ (1 - e).

(** [Math.round]: the nearest integer, ties upwards.  A double with a
    non-negative exponent is an integer already, and so are the
    infinities and NaN for this purpose; a zero result keeps the sign of
    the argument. *)
Definition round (x : float) : float :=
  match Prim2SF x with
  | S754_finite s m e =>
      if 0 <=? e then x
      else
        match round_half_up (if s then Zneg m else Zpos m) e with
        | Z0 => if s then neg_zero else zero
        | Zpos n => of_uint63 (Uint63.of_Z (Zpos n))
        | Zneg n => PrimFloat.opp (of_uint63 (Uint63.of_Z (Zpos n)))
        end
  | _ => x
  end.

Definition pow (x y : float) : float :=
  if PrimFloat.eqb y (of_Z 2) then PrimFloat.mul x x else nan.

#[global] Instance number : JsNumber float := {|
  num_of_Z := of_Z;
  NaN := nan;
  num_add := PrimFloat.add;
  num_sub := PrimFloat.sub;
  num_mul := PrimFloat.mul;
  num_div := PrimFloat.div;
  num_lt := PrimFloat.ltb;
  Math_round := round;
  Math_sqrt := PrimFloat.sqrt;
  Math_pow := pow;
  parseFloat := parse;
|}.

(** A double, as the specification of the format describes it, is not
    below zero. *)
Definition sf_not_below_zero (x : spec_float) : Prop :=
  SFltb x (S754_zero false) = false.

End Binary64.

(** ** A scripted world *)

(** A world in which the provider answers from a fixed table of responses
    by URL, the clock is a counter of milliseconds that the timers advance,
    and every request is logged. *)
Module Scripted.

Record world := mk_world {
  clock : Z;
  provider : string -> Outcome Response;
  requests : list string;
}.

Definition scripted_fetch (url : string) : M world Response :=
  fun w => (provider w url, mk_world (clock w) (provider w) (requests w ++ [url])).

Definition scripted_sleep (ms : Z) (w : world) : world :=
  mk_world (clock w + ms) (provider w) (requests w).

#[global] Instance environment : World world := {|
  API_KEY := "demo";
  fetch := scripted_fetch;
  sleep := scripted_sleep;
  Date_now := clock;
|}.

Definition point (date value : string) : RawSeriesPoint.t :=
  RawSeriesPoint.mk date value.

(** A payload named after the function, in dollars, with the given
    values, newest first. *)
Definition payload (fn : string) (values : list string) : CommodityData.t :=
  CommodityData.mk fn "daily" "USD" (Some (map (point "2025-01-01") values)).

(** The URL of the daily series of the function [fn]. *)
Definition daily_url (fn : string) : string :=
  BASE_URL ++ "?function=" ++ fn ++ "&interval=daily&apikey=demo".

(** A payload without a series, which is how the provider words a notice
    or an error of its own. *)
Definition note : CommodityData.t :=
  CommodityData.mk EmptyString EmptyString EmptyString None.

(** The provider that serves [values] as the daily series of the function
    [fn], and a note without a series for every other request. *)
Definition serving (fn : string) (values : list string) : string -> Outcome Response :=
  fun url =>
    if String.eqb url (daily_url fn)
    then Ok (mk_response 200 (Json (payload fn values)))
    else Ok (mk_response 200 (Json note)).

Definition start (p : string -> Outcome Response) : world := mk_world 0 p [].

(** The world once the daily series of [fn] has been requested. *)
Definition asked (fn : string) (w : world) : world :=
  mk_world (clock w) (provider w) (requests w ++ [daily_url fn]).

(** A provider that answers every request with the same response. *)
Definition answering (res : Response) : string -> Outcome Response :=
  fun _ => Ok res.

(** A provider that is out of reach: every request fails. *)
Definition unreachable (message : string) : string -> Outcome Response :=
  fun _ => Throw message.

(** A fetcher for the cache: one request, of which it keeps the status. *)
Definition status_fetcher : M (Cache.State world Z) Z :=
  Cache.external (bind (fetch "https://status.example/") (fun res => ret (status res))).

(** The number of requests made so far. *)
Definition request_count (w : world) : nat := length (requests w).

(** Eight daily closes, newest first. *)
Definition week : list string :=
  ["110"; "109"; "108"; "107"; "106"; "105"; "104"; "100"].


(** Seven positive closes, the newest beyond every ratio a double can
    hold to the one before. *)
Definition surge : list string := "1e308" :: repeat "0.1" 6.

(** Ninety daily closes: 110, six at 105, twenty-three at 100, fifty-nine
    at 90 and the oldest at 80. *)
Definition quarter : list string :=
  ["110"] ++ repeat "105" 6 ++ repeat "100" 23 ++ repeat "90" 59 ++ ["80"].

(** Eight daily closes, the newest 1e306 times the others. *)
Definition leap : list string := "1e306" :: repeat "1" 7.

End Scripted.

(** ** The specification's formulas *)

(** The derivation rules of the specification, written from its words over
    the whole price sequence [p[0..n)], newest first, to be compared with
    what [fetchAnalysis] computes. *)
Section Specification.
Context {num : Type} `{JsNumber num} {W : Type} `{World W}.
Local Open Scope js_scope.

(** The price sequence of a raw series. *)
Definition prices_of (series : list RawSeriesPoint.t) : list num :=
  map (fun d => parseFloat (RawSeriesPoint.value d)) series.

(** [(p[0] - p[k]) / p[k] * 100], defined when the series has more than
    [k] elements. *)
Definition raw_change (p : list num) (k : nat) : option num :=
  if decide (k < length p)%nat
  then Some (((js_index p 0 - js_index p k) / js_index p k) * #100)
  else None.

(** [change(k)] as it is reported: [Math.round(c * 100) / 100] of that
    change [c], in the arithmetic of the carrier. *)
Definition spec_change (p : list num) (k : nat) : option num :=
  match raw_change p k with
  | Some c => Some (Math_round (c * #100) / #100)
  | None => None
  end.

Definition sum_of (l : list num) : num := fold_left num_add l #0.

Definition arithmetic_mean (l : list num) : num :=
  sum_of l / num_of_nat (length l).

(** [MA(period)]: the mean of the newest [period] points. *)
Definition spec_MA (p : list num) (period : nat) : option num :=
  if decide (length p < period)%nat then None
  else Some (arithmetic_mean (firstn period p)).

(** [r[i] = (p[i-1] - p[i]) / p[i]] *)
Definition relative_return (p : list num) (i : nat) : num :=
  (js_index p (i - 1) - js_index p i) / js_index p i.

(** The returns for [i = 1 .. min(n, 30) - 1]. *)
Definition spec_returns (p : list num) : list num :=
  map (relative_return p) (seq 1 (Nat.min (length p) 30 - 1)).

(** The population standard deviation: the square root of the mean of the
    squared deviations from the mean. *)
Definition population_stdev (l : list num) : num :=
  let mean := arithmetic_mean l in
  Math_sqrt (fold_left (fun acc r => acc + Math_pow (r - mean) #2) l #0
             / num_of_nat (length l)).

(** The volatility as it is reported: the deviation as a percentage [s],
    then [Math.round(s * 100) / 100]. *)
Definition spec_volatility (p : list num) : option num :=
  if decide (length p < 7)%nat then None
  else Some (Math_round ((population_stdev (spec_returns p) * #100) * #100) / #100).



(** The change an analysis reports against [p[k]]: [day7], [day30] and
    [day90] are the changes against [p[7]], [p[30]] and [p[89]]. *)
Definition reported_change (a : CommodityAnalysis.t num) (k : nat) : option num :=
  if (k =? 7)%nat then CommodityAnalysis.day7 (CommodityAnalysis.changes a)
  else if (k =? 30)%nat then CommodityAnalysis.day30 (CommodityAnalysis.changes a)
  else if (k =? 89)%nat then CommodityAnalysis.day90 (CommodityAnalysis.changes a)
  else None.

(** The two awaits of every fetcher, the request and [res.json()], when
    they settle with a payload; on [null] the read of [data.data] throws. *)
Definition request (url : string) : M W CommodityData.t :=
  bind (fetch url)
    (fun res =>
       bind (Response_json res)
         (fun data =>
            match data with
            | Some payload => ret payload
            | None => throw null_data_message
            end)).

(** The price [fetchCommodity] derives from a payload and the first point
    of its series. *)
Definition latest_price (payload : CommodityData.t) (latest : RawSeriesPoint.t)
    : CommodityPrice.t num :=
  CommodityPrice.mk
    (CommodityData.name payload)
    (parseFloat (RawSeriesPoint.value latest))
    (CommodityData.unit payload)
    (RawSeriesPoint.date latest)
    (CommodityData.interval payload).

(** The history [fetchHistorical] derives from a series. *)
Definition history (series : list RawSeriesPoint.t) (limit : Z)
    : list (HistoricalPoint.t num) :=
  map (fun d => HistoricalPoint.mk (RawSeriesPoint.date d)
                  (parseFloat (RawSeriesPoint.value d)))
      (slice0 series limit).

(** What the bulk operation records for a symbol, given how the fetch of
    that symbol settled. *)
Definition recorded (r : Outcome (option (CommodityPrice.t num))) : PriceOrError num :=
  match r with
  | Ok (Some p) => price_entry p
  | Ok None => error_entry "No data available"
  | Throw message => error_entry message
  end.

(** The world in which the bulk operation fetches the symbol that follows
    [done]: after the fetch of each symbol of [done] and the pause that
    follows it. *)
Fixpoint world_after (interval : Interval) (done : list string) (w : W) : W :=
  match done with
  | [] => w
  | c :: rest =>
      world_after interval rest
        (sleep 200 (snd (fetchCommodity (num := num) c interval w)))
  end.

End Specification.

(** A double rounded to 2 decimals, in exact arithmetic: the double nearest
    to [k / 100], where [k] is the integer nearest to 100 times the double,
    a tie going upwards as in [Math.round].  A double with a non-negative
    exponent is an integer and is its own rounding; so are, for this
    purpose, the zeros, the infinities and NaN. *)
Definition rounded_to_2_decimals (x : float) : float :=
  match Prim2SF x with
  | S754_finite s m e =>
      if 0 <=? e then x
      else
        match Binary64.round_half_up (100 * (if s then Zneg m else Zpos m)) e with
        | Z0 => if s then neg_zero else zero
        | Zpos k => Binary64.nearest_double false (Zpos k) (-2)
        | Zneg k => Binary64.nearest_double true (Zpos k) (-2)
        end
  | _ => x
  end.

(** The facts about [<] that the statements on signs rely on: a square
    root is never below zero, scaling by 100 and rounding keep a number
    that is not below zero that way, and nothing above 2 is below -2.  They
    are stated with [<] alone, the one comparison the code makes, and hold
    of the doubles ([binary64_order]), for which a NaN is not below zero
    either. *)
Class NumberOrder (num : Type) `{JsNumber num} : Prop := {
  sqrt_not_below_zero : forall x : num, (Math_sqrt x <? #0)%js = false;
  times_100_not_below_zero :
    forall x : num, (x <? #0)%js = false -> (x * #100 <? #0)%js = false;
  over_100_not_below_zero :
    forall x : num, (x <? #0)%js = false -> (x / #100 <? #0)%js = false;
  round_not_below_zero :
    forall x : num, (x <? #0)%js = false -> (Math_round x <? #0)%js = false;
  above_2_not_below_minus_2 :
    forall x : num, (x >? #2)%js = true -> (x <? #(-2))%js = false;
}.

(** ** The entrypoints (index.ts) *)

(** [s.replace(/[- ]/g, '_')] *)
Definition underscore (c : ascii) : ascii :=
  if (Ascii.eqb c "-" || Ascii.eqb c " ")%bool then "_"%char else c.

Fixpoint replace_separators (s : string) : string :=
  match s with
  | EmptyString => EmptyString
  | String c rest => String (underscore c) (replace_separators rest)
  end.

(** [commodity.toLowerCase().replace(/[- ]/g, '_')], the key every
    entrypoint looks up. *)
Definition normalize (commodity : string) : string :=
  replace_separators (toLowerCase commodity).

(** [Object.keys(COMMODITIES).filter((k) => k !== 'all')], the list an
    unknown commodity is answered with. *)
Definition available : list string :=
  List.filter (fun k => negb (String.eqb k "all")) (Object_keys COMMODITIES).

(** The keys of the cache, one template string per entrypoint.  [limit] is
    an integer and prints in decimal. *)
Definition price_key (key : string) (interval : Interval) : string :=
  "commodity:" ++ key ++ ":" ++ interval_name interval.

Definition all_key (interval : Interval) : string :=
  "all:" ++ interval_name interval.

Definition historical_key (key : string) (interval : Interval) (limit : Z) : string :=
  "historical:" ++ key ++ ":" ++ interval_name interval ++ ":" ++ pretty limit.

Definition index_key : string := "commodities-index".

Definition analysis_key (key : string) : string := "analysis:" ++ key.

(** What the store of the cache holds: its entries are declared
    [unknown], and the entrypoints put into it what the five fetchers
    return, [null] included. *)
Inductive CachedValue (num : Type) :=
  | null_value
  | price_value (p : CommodityPrice.t num)
  | bulk_value (r : gmap string (PriceOrError num))
  | history_value (h : list (HistoricalPoint.t num))
  | aggregate_value (v : IndexValue num)
  | analysis_value (a : CommodityAnalysis.t num).
Arguments null_value {num}.
Arguments price_value {num}.
Arguments bulk_value {num}.
Arguments history_value {num}.
Arguments aggregate_value {num}.
Arguments analysis_value {num}.

(** The outputs of the entrypoints.  A value read from the cache is spread
    or passed on as it is. *)
Inductive Output (num : Type) :=
  | unknown_commodity (available : list string)
  | no_data
  | price_output (data : CachedValue num) (category description : option string)
      (fetchedAt : string) (cacheAge : Z)
  | bulk_output (commodities : CachedValue num) (count : nat) (interval : string)
      (fetchedAt : string)
  | historical_output (commodity : string) (interval : string)
      (dataPoints : option nat) (history : CachedValue num) (fetchedAt : string)
  | stamped_output (data : CachedValue num) (fetchedAt : string).
Arguments unknown_commodity {num}.
Arguments no_data {num}.
Arguments price_output {num}.
Arguments bulk_output {num}.
Arguments historical_output {num}.
Arguments stamped_output {num}.

Section Entrypoints.
Context {num : Type} `{JsNumber num} {W : Type} `{World W}.
(** [new Date(ms).toISOString()] *)
Variable toISOString : Z -> string.
Local Open Scope async_scope.

(** [!data]: [null] is the one falsy value a fetcher returns. *)
Definition truthy (v : CachedValue num) : bool :=
  match v with
  | null_value => false
  | _ => true
  end.

(** [Object.keys(data).length]: the own enumerable keys of an object, the
    indices of an array; a [TypeError] on [null]. *)
Definition keys_count (v : CachedValue num) : Outcome nat :=
  match v with
  | null_value => Throw "Cannot convert undefined or null to object"
  | price_value _ => Ok 5%nat
  | bulk_value r => Ok (size r)
  | history_value h => Ok (length h)
  | aggregate_value _ => Ok 4%nat
  | analysis_value _ => Ok 8%nat
  end.

(** [data.length]: defined on an array. *)
Definition array_length (v : CachedValue num) : option nat :=
  match v with
  | history_value h => Some (length h)
  | _ => None
  end.

(** The fetcher an entrypoint hands to the cache: the closure over one of
    the fetchers of alpha-vantage.ts. *)
Definition cached {A : Type} (inj : A -> CachedValue num) (f : M W (option A))
    : M (Cache.State W (CachedValue num)) (CachedValue num) :=
  Cache.external
    (r <- f ;;
     ret (match r with
          | Some a => inj a
          | None => null_value
          end)).

Definition cached_bulk (f : M W (gmap string (PriceOrError num)))
    : M (Cache.State W (CachedValue num)) (CachedValue num) :=
  Cache.external (r <- f ;; ret (bulk_value r)).

(** [new Date().toISOString()] *)
Definition timestamp_now : M (Cache.State W (CachedValue num)) string :=
  t <- Cache.now ;; ret (toISOString t).

(** [cache.getAge(key) || 0] *)
Definition age_or_zero (key : string) : M (Cache.State W (CachedValue num)) Z :=
  age <- Cache.getAge key ;;
  ret (match age with
       | Some a => a
       | None => 0
       end).

(** The entrypoint [price]. *)
Definition price_entrypoint (commodity : string) (interval : Interval)
    : M (Cache.State W (CachedValue num)) (Output num) :=
  let key := normalize commodity in
  match prop_get COMMODITIES key with
  | None => ret (unknown_commodity available)
  | Some fn =>
      if String.eqb fn EmptyString then ret (unknown_commodity available)
      else
        data <- Cache.get (price_key key interval)
                  (cached price_value (fetchCommodity key interval)) 60000 ;;
        if truthy data then
          let info := prop_get COMMODITY_INFO key in
          fetchedAt <- timestamp_now ;;
          cacheAge <- age_or_zero (price_key key interval) ;;
          ret (price_output data
                 (option_map info_category info) (option_map info_description info)
                 fetchedAt cacheAge)
        else ret no_data
  end.

(** The entrypoint [all]. *)
Definition all_entrypoint (interval : Interval)
    : M (Cache.State W (CachedValue num)) (Output num) :=
  data <- Cache.get (all_key interval)
            (cached_bulk (fetchAllCommodities interval)) 120000 ;;
  match keys_count data with
  | Throw message => throw message
  | Ok count =>
      fetchedAt <- timestamp_now ;;
      ret (bulk_output data count (interval_name interval) fetchedAt)
  end.

(** [info?.description || key] *)
Definition description_or_key (info : option CommodityInfo) (key : string) : string :=
  match info with
  | Some i =>
      if String.eqb (info_description i) EmptyString then key else info_description i
  | None => key
  end.

(** The entrypoint [historical]. *)
Definition historical_entrypoint (commodity : string) (interval : Interval) (limit : Z)
    : M (Cache.State W (CachedValue num)) (Output num) :=
  let key := normalize commodity in
  match prop_get COMMODITIES key with
  | None => ret (unknown_commodity available)
  | Some fn =>
      if String.eqb fn EmptyString then ret (unknown_commodity available)
      else
        data <- Cache.get (historical_key key interval limit)
                  (cached history_value (fetchHistorical key interval limit)) 300000 ;;
        if truthy data then
          let info := prop_get COMMODITY_INFO key in
          fetchedAt <- timestamp_now ;;
          ret (historical_output (description_or_key info key) (interval_name interval)
                 (array_length data) data fetchedAt)
        else ret no_data
  end.

(** The entrypoint [index]. *)
Definition index_entrypoint : M (Cache.State W (CachedValue num)) (Output num) :=
  data <- Cache.get index_key (cached aggregate_value fetchCommoditiesIndex) 300000 ;;
  if truthy data then
    fetchedAt <- timestamp_now ;;
    ret (stamped_output data fetchedAt)
  else ret no_data.

(** The entrypoint [analysis]. *)
Definition analysis_entrypoint (commodity : string)
    : M (Cache.State W (CachedValue num)) (Output num) :=
  let key := normalize commodity in
  match prop_get COMMODITIES key with
  | None => ret (unknown_commodity available)
  | Some fn =>
      if String.eqb fn EmptyString then ret (unknown_commodity available)
      else
        data <- Cache.get (analysis_key key)
                  (cached analysis_value (fetchAnalysis key)) 120000 ;;
        if truthy data then
          fetchedAt <- timestamp_now ;;
          ret (stamped_output data fetchedAt)
        else ret no_data
  end.

End Entrypoints.

(** ** Observing a run *)

Section Observations.
Context {num : Type} `{JsNumber num} {W : Type} `{World W}.

(** [log] observes the requests: each call of [fetch] appends its URL, and
    a pause appends nothing. *)
Definition logs_requests (log : W -> list string) : Prop :=
  (forall (url : string) (w : W), log (snd (fetch url w)) = log w ++ [url]) /\
  (forall (ms : Z) (w : W), log (sleep ms w) = log w).

(** [slept] observes the pauses: each one adds its milliseconds, and a
    request adds nothing. *)
Definition counts_pauses (slept : W -> Z) : Prop :=
  (forall (url : string) (w : W), slept (snd (fetch url w)) = slept w) /\
  (forall (ms : Z) (w : W), slept (sleep ms w) = slept w + ms).

(** The requests a single-symbol fetcher makes for a symbol: one, for the
    function of the symbol, or none when the symbol is unknown. *)
Definition symbol_requests (commodity interval : string) : list string :=
  match prop_get COMMODITIES (toLowerCase commodity) with
  | Some fn => [query_url fn interval]
  | None => []
  end.

(** A price without its [interval]: the four fields of the index value. *)
Definition without_interval (p : CommodityPrice.t num) : IndexValue num :=
  mk_index (CommodityPrice.name p) (CommodityPrice.price p)
    (CommodityPrice.unit p) (CommodityPrice.date p).

(** The point of a history that a raw point becomes. *)
Definition historical_point (d : RawSeriesPoint.t) : HistoricalPoint.t num :=
  HistoricalPoint.mk (RawSeriesPoint.date d) (parseFloat (RawSeriesPoint.value d)).

End Observations.

(** The names an object literal inherits from [Object.prototype].  A
    lookup of one of them finds a value although the literal has no such
    key; [prop_get] reads the literal alone, so a statement about a key
    that the catalog lacks leaves these names out. *)
Definition inherited_names : list string :=
  ["constructor"; "__proto__"; "hasOwnProperty"; "isPrototypeOf";
   "propertyIsEnumerable"; "toLocaleString"; "toString"; "valueOf";
   "__defineGetter__"; "__defineSetter__"; "__lookupGetter__"; "__lookupSetter__"].

(** A double that is not a number. *)
Definition is_NaN (x : float) : Prop := Prim2SF x = S754_nan.

(** [COMMODITIES[key]] is [undefined]. *)
Definition unknown_symbol (key : string) : Prop :=
  prop_get COMMODITIES key = None /\ ~ In key inherited_names.

(** ** What the store holds under each key *)

(** The entrypoint a key of the cache belongs to, read off the prefix of
    its template. *)
Inductive Kind :=
  | price_kind | bulk_kind | history_kind | aggregate_kind | analysis_kind | other_kind.

Fixpoint has_prefix (p s : string) : bool :=
  match p, s with
  | EmptyString, _ => true
  | String a p', String b s' => Ascii.eqb a b && has_prefix p' s'
  | String _ _, EmptyString => false
  end.

Definition kind_of (key : string) : Kind :=
  if has_prefix "commodity:" key then price_kind
  else if has_prefix "all:" key then bulk_kind
  else if has_prefix "historical:" key then history_kind
  else if String.eqb key "commodities-index" then aggregate_kind
  else if has_prefix "analysis:" key then analysis_kind
  else other_kind.

(** A string without a colon, as every key of the catalog is. *)
Fixpoint no_colon (s : string) : bool :=
  match s with
  | EmptyString => true
  | String c rest => negb (Ascii.eqb c ":") && no_colon rest
  end.

Section Tags.
Context {num : Type}.

(** The values an entrypoint stores: what its fetcher returns, which is
    [null] or its own kind of data, and for the bulk operation a mapping
    with one entry per commodity. *)
Definition fits (k : Kind) (v : CachedValue num) : Prop :=
  match k, v with
  | price_kind, (null_value | price_value _) => True
  | bulk_kind, bulk_value r => forall c : string, is_Some (r !! c) <-> In c bulk_symbols
  | history_kind, (null_value | history_value _) => True
  | aggregate_kind, (null_value | aggregate_value _) => True
  | analysis_kind, (null_value | analysis_value _) => True
  | other_kind, _ => True
  | _, _ => False
  end.

Definition well_tagged (store : gmap string (Cache.CacheEntry (CachedValue num))) : Prop :=
  forall (key : string) (e : Cache.CacheEntry (CachedValue num)),
    store !! key = Some e -> fits (kind_of key) (Cache.data e).

End Tags.


(** * Properties *)

(** ** The doubles satisfy the order facts *)

Section Binary64Order.
Import Binary64.

(** The comparison with zero, read on the description of the double. *)
Lemma not_below_zero_spec (x : float) :
  PrimFloat.ltb x zero = false <-> sf_not_below_zero (Prim2SF x).
Proof. unfold sf_not_below_zero. rewrite FloatAxioms.ltb_spec. reflexivity. Qed.

(** Rounding keeps the sign it is given: with a positive sign the result
    is a zero, a positive number, plus infinity or NaN. *)
Lemma round_aux_not_below_zero mx ex lx :
  sf_not_below_zero (binary_round_aux prec emax false mx ex lx).
Proof.
  unfold sf_not_below_zero, binary_round_aux.
  destruct (shr_fexp prec emax mx ex lx) as [mrs e'].
  destruct (shr_fexp prec emax _ e' loc_Exact) as [mrs' e''].
  destruct (shr_m mrs'); try reflexivity.
  destruct (e'' <=? emax - prec); reflexivity.
Qed.

(** What is not below zero and has a sign has the positive one. *)
Lemma sf_not_below_zero_sign (x : spec_float) :
  sf_not_below_zero x ->
  match x with
  | S754_finite s _ _ | S754_infinity s => s = false
  | _ => True
  end.
Proof.
  unfold sf_not_below_zero, SFltb.
  destruct x as [s|s| |s m e]; simpl; try (destruct s; congruence || reflexivity); auto.
Qed.

Lemma sqrt_never_below_zero (x : float) : PrimFloat.ltb (PrimFloat.sqrt x) zero = false.
Proof.
  apply not_below_zero_spec. rewrite sqrt_spec.
  unfold SF64sqrt, SFsqrt.
  destruct (Prim2SF x) as [s|s| |s m e]; try reflexivity.
  - destruct s; reflexivity.
  - destruct s; try reflexivity.
    destruct (SFsqrt_core_binary prec emax (Z.pos m) e) as [[mz ez] lz].
    apply round_aux_not_below_zero.
Qed.

Lemma hundred_as_spec_float : Prim2SF (of_Z 100) = S754_finite false 7036874417766400 (-46).
Proof. vm_compute. reflexivity. Qed.

Lemma times_100_keeps_sign (x : float) :
  PrimFloat.ltb x zero = false -> PrimFloat.ltb (PrimFloat.mul x (of_Z 100)) zero = false.
Proof.
  rewrite !not_below_zero_spec. intros Hx. apply sf_not_below_zero_sign in Hx.
  rewrite mul_spec, hundred_as_spec_float. unfold SF64mul, SFmul.
  destruct (Prim2SF x) as [s|s| |s m e]; try reflexivity.
  - subst s. reflexivity.
  - subst s. apply round_aux_not_below_zero.
Qed.

Lemma over_100_keeps_sign (x : float) :
  PrimFloat.ltb x zero = false -> PrimFloat.ltb (PrimFloat.div x (of_Z 100)) zero = false.
Proof.
  rewrite !not_below_zero_spec. intros Hx. apply sf_not_below_zero_sign in Hx.
  rewrite div_spec, hundred_as_spec_float. unfold SF64div, SFdiv.
  destruct (Prim2SF x) as [s|s| |s m e]; try reflexivity.
  - subst s. reflexivity.
  - subst s.
    destruct (SFdiv_core_binary prec emax (Z.pos m) e _ _) as [[mz ez] lz].
    apply round_aux_not_below_zero.
Qed.

Lemma of_uint63_not_below_zero (k : PrimInt63.int) : PrimFloat.ltb (of_uint63 k) zero = false.
Proof.
  apply not_below_zero_spec. rewrite of_uint63_spec.
  pose proof (Uint63.to_Z_bounded k) as Hk.
  destruct (Uint63.to_Z k) as [|p|p]; try lia.
  - reflexivity.
  - unfold binary_normalize, binary_round.
    destruct (shl_align p 0 _) as [mz ez].
    apply round_aux_not_below_zero.
Qed.

Lemma round_half_up_pos (m : positive) (e : Z) : 0 <= round_half_up (Z.pos m) e.
Proof.
  unfold round_half_up.
  destruct (Z.le_gt_cases 0 (1 - e)) as [Hle|Hgt].
  - apply Z.div_pos.
    + assert (0 <= 2 ^ (- e)) by (apply Z.pow_nonneg; lia). lia.
    + apply Z.pow_pos_nonneg; lia.
  - rewrite (Z.pow_neg_r 2 (1 - e)) by lia. rewrite Z.div_0_r. lia.
Qed.

Lemma Math_round_keeps_sign (x : float) :
  PrimFloat.ltb x zero = false -> PrimFloat.ltb (round x) zero = false.
Proof.
  intros Hx. unfold round.
  pose proof (proj1 (not_below_zero_spec x) Hx) as Hs. apply sf_not_below_zero_sign in Hs.
  destruct (Prim2SF x) as [s|s| |s m e]; try exact Hx.
  subst s. destruct (0 <=? e); [exact Hx|].
  pose proof (round_half_up_pos m e) as Hn.
  destruct (round_half_up (Z.pos m) e) as [|n|n]; try lia.
  - reflexivity.
  - apply of_uint63_not_below_zero.
Qed.

Lemma two_as_spec_float :
  Prim2SF (of_Z 2) = S754_finite false 4503599627370496 (-51).
Proof. vm_compute. reflexivity. Qed.

Lemma minus_two_as_spec_float :
  Prim2SF (of_Z (-2)) = S754_finite true 4503599627370496 (-51).
Proof. vm_compute. reflexivity. Qed.

Lemma above_2_excludes_below_minus_2 (x : float) :
  PrimFloat.ltb (of_Z 2) x = true -> PrimFloat.ltb x (of_Z (-2)) = false.
Proof.
  rewrite !FloatAxioms.ltb_spec, two_as_spec_float, minus_two_as_spec_float. unfold SFltb.
  destruct (Prim2SF x) as [s|s| |s m e]; try destruct s;
    cbv beta iota delta [SFcompare]; intros Hlt; try reflexivity; discriminate Hlt.
Qed.

(** On the doubles, not to be below zero is to be NaN or at least zero. *)
Lemma not_below_zero_double (x : float) :
  PrimFloat.ltb x zero = false ->
  PrimFloat.is_nan x = true \/ PrimFloat.leb zero x = true.
Proof.
  unfold is_nan.
  rewrite FloatAxioms.ltb_spec, FloatAxioms.leb_spec, FloatAxioms.eqb_spec.
  change (Prim2SF zero) with (S754_zero false).
  unfold SFltb, SFleb, SFeqb.
  destruct (Prim2SF x) as [s|s| |s m e]; try destruct s;
    cbv beta iota delta [SFcompare]; intros Hx;
    try discriminate Hx; (left; reflexivity) || (right; reflexivity).
Qed.

End Binary64Order.

#[global] Instance binary64_order : NumberOrder float.
Proof.
  split; cbn.
  - exact sqrt_never_below_zero.
  - exact times_100_keeps_sign.
  - exact over_100_keeps_sign.
  - exact Math_round_keeps_sign.
  - exact above_2_excludes_below_minus_2.
Qed.

(** ** Arrays *)

Section Arrays.
Context {num : Type} `{JsNumber num}.

Lemma slice0_firstn {A : Type} (arr : list A) (k : nat) :
  slice0 arr (Z.of_nat k) = firstn k arr.
Proof.
  unfold slice0.
  destruct (Z.ltb_spec (Z.of_nat k) 0) as [Hneg|_]; [lia|].
  destruct (Nat.le_gt_cases k (length arr)) as [Hle|Hgt].
  - rewrite Z.min_l by lia. now rewrite Nat2Z.id.
  - rewrite Z.min_r by lia. rewrite Nat2Z.id.
    rewrite !firstn_all2 by lia. reflexivity.
Qed.

Lemma js_index_firstn (arr : list num) (k i : nat) :
  (i < k)%nat -> js_index (firstn k arr) i = js_index arr i.
Proof.
  unfold js_index. revert k i.
  induction arr as [|x arr IH]; intros k i Hik.
  - now rewrite firstn_nil.
  - destruct k as [|k]; [lia|].
    destruct i as [|i]; [reflexivity|].
    simpl. apply IH. lia.
Qed.

Lemma length_firstn_min {A : Type} (arr : list A) (k : nat) :
  length (firstn k arr) = Nat.min k (length arr).
Proof.
  revert k. induction arr as [|x arr IH]; intros [|k]; simpl; auto.
Qed.

(** The loop pushes the returns for [i], [i + 1], ... up to [bound - 1],
    in this order, once it has fuel for them. *)
Lemma returns_loop_unroll (prices : list num) (bound fuel i : nat) (returns : list num) :
  (bound - i <= fuel)%nat ->
  returns_loop fuel prices bound i returns
  = returns ++ map (relative_return prices) (seq i (bound - i)).
Proof.
  revert i returns.
  induction fuel as [|fuel IH]; intros i returns Hfuel.
  - replace (bound - i)%nat with 0%nat by lia. simpl. now rewrite app_nil_r.
  - simpl. destruct (Nat.ltb_spec i bound) as [Hlt|Hge].
    + rewrite IH by lia.
      replace (bound - i)%nat with (S (bound - S i)) by lia.
      simpl. rewrite <- app_assoc. reflexivity.
    + replace (bound - i)%nat with 0%nat by lia. simpl. now rewrite app_nil_r.
Qed.

Lemma daily_returns_spec (prices : list num) :
  daily_returns prices = spec_returns prices.
Proof.
  unfold daily_returns, spec_returns.
  rewrite returns_loop_unroll by lia. reflexivity.
Qed.

(** Only the newest 30 points take part in the returns: the truncation to
    90 points leaves them as they are. *)
Lemma spec_returns_firstn (p : list num) :
  spec_returns (firstn 90 p) = spec_returns p.
Proof.
  unfold spec_returns. rewrite length_firstn_min.
  replace (Nat.min (Nat.min 90 (length p)) 30) with (Nat.min (length p) 30) by lia.
  apply map_ext_in. intros i Hi. apply in_seq in Hi.
  unfold relative_return. rewrite !js_index_firstn by lia. reflexivity.
Qed.

Lemma calculateMA_spec (p : list num) (period : nat) :
  calculateMA p period = spec_MA p period.
Proof.
  unfold calculateMA, spec_MA.
  destruct (Nat.ltb_spec (length p) period) as [Hlt|Hge].
  - destruct (decide (length p < period)%nat); [reflexivity|lia].
  - destruct (decide (length p < period)%nat); [lia|].
    unfold arithmetic_mean, sum_of, reduce.
    rewrite length_firstn_min. now rewrite Nat.min_l by lia.
Qed.

Lemma spec_MA_firstn (p : list num) (period : nat) :
  (period <= 90)%nat -> spec_MA (firstn 90 p) period = spec_MA p period.
Proof.
  intros Hperiod. unfold spec_MA. rewrite length_firstn_min.
  destruct (decide (Nat.min 90 (length p) < period)%nat);
    destruct (decide (length p < period)%nat); try lia; try reflexivity.
  rewrite firstn_firstn. now rewrite Nat.min_l by lia.
Qed.

Lemma raw_change_firstn (p : list num) (k : nat) :
  (k < 90)%nat -> change_against (firstn 90 p) k = raw_change p k.
Proof.
  intros Hk. unfold change_against, raw_change, calculateChange.
  rewrite length_firstn_min.
  destruct (Nat.ltb_spec k (Nat.min 90 (length p))) as [Hlt|Hge];
    destruct (decide (k < length p)%nat); try lia; try reflexivity.
  rewrite !js_index_firstn by lia. reflexivity.
Qed.

Lemma calculateVolatility_spec (p : list num) :
  round2_opt (calculateVolatility (firstn 90 p)) = spec_volatility p.
Proof.
  unfold calculateVolatility, spec_volatility.
  rewrite daily_returns_spec, spec_returns_firstn, length_firstn_min.
  destruct (Nat.ltb_spec (Nat.min 90 (length p)) 7) as [Hlt|Hge];
    destruct (decide (length p < 7)%nat); try lia; reflexivity.
Qed.

End Arrays.

(** ** The guards of the fetchers *)

(** Every function identifier of the catalog is a non-empty string: the
    guard [!fn] only ever fires on an unknown symbol. *)
Lemma catalog_function_nonempty (key fn : string) :
  prop_get COMMODITIES key = Some fn -> String.eqb fn EmptyString = false.
Proof.
  cbn [prop_get COMMODITIES].
  repeat (destruct (String.eqb _ key); [intros [= <-]; reflexivity|]).
  discriminate.
Qed.

(** Runs a fetcher past its guards, given that the symbol is known
    ([Hfn]), that the request settles with a payload ([Hreq]) and what the
    series of the payload is ([Hdata]). *)
Ltac run_served Hfn Hreq Hdata :=
  rewrite Hfn, (catalog_function_nonempty _ _ Hfn);
  unfold request, bind in *;
  match type of Hreq with
  | context [fetch ?url ?w] =>
      destruct (fetch url w) as [[?res|?e] ?w1]; [|discriminate Hreq];
      match type of Hreq with
      | context [Response_json ?r ?w2] =>
          destruct (Response_json r w2) as [[[?d|]|?e] ?w3];
            [|discriminate Hreq|discriminate Hreq]
      end
  end;
  injection Hreq as -> ->; rewrite Hdata.

(** ** The analysis *)

Section Analysis.
Context {num : Type} `{JsNumber num} {W : Type} `{World W}.
Local Open Scope js_scope.

(** [fetchAnalysis], when the provider answers the daily request for a
    known symbol with a payload that carries a non-empty series. *)
Lemma fetchAnalysis_served (commodity fn : string) (payload : CommodityData.t)
    (latest : RawSeriesPoint.t) (rest : list RawSeriesPoint.t) (w w' : W) :
  prop_get COMMODITIES (toLowerCase commodity) = Some fn ->
  request (query_url fn "daily") w = (Ok payload, w') ->
  CommodityData.data payload = Some (latest :: rest) ->
  fetchAnalysis (num := num) commodity w
  = (Ok (Some (analyse commodity (prop_get COMMODITY_INFO (toLowerCase commodity))
                 payload latest (latest :: rest))), w').
Proof.
  intros Hfn Hreq Hdata. unfold fetchAnalysis. now run_served Hfn Hreq Hdata.
Qed.

(** The prices the analysis works on are the first 90 of the series. *)
Lemma analysed_prices (series : list RawSeriesPoint.t) :
  map (fun d => parseFloat (RawSeriesPoint.value d)) (slice0 series 90)
  = firstn 90 (prices_of (num := num) series).
Proof.
  change 90%Z with (Z.of_nat 90). rewrite slice0_firstn.
  unfold prices_of. now rewrite firstn_map.
Qed.

Lemma analyse_changes (commodity : string) (info : option CommodityInfo)
    (payload : CommodityData.t) (latest : RawSeriesPoint.t)
    (series : list RawSeriesPoint.t) (k : nat) :
  In k [7; 30; 89]%nat ->
  reported_change (analyse (num := num) commodity info payload latest series) k
  = spec_change (prices_of series) k.
Proof.
  intros Hk. unfold reported_change, analyse, spec_change. cbn [In] in Hk.
  rewrite analysed_prices.
  destruct Hk as [<-|[<-|[<-|[]]]]; cbn;
    rewrite raw_change_firstn by lia;
    match goal with
    | |- context [raw_change ?p ?k] => now destruct (raw_change p k)
    end.
Qed.

(** C1, as the code has it. For the series [p[0..n)] the provider serves
    and each [k] of 7, 30 and 89, the analysis reports [null] when [n <= k],
    and when [n > k] the change [c = (p[0] - p[k]) / p[k] * 100] as
    [Math.round(c * 100) / 100], every operation being one of the carrier.
    On the doubles this is not always [c] rounded to 2 decimals
    ([reported_change_is_not_the_rounding]). *)
Theorem change_null_boundary (commodity fn : string) (payload : CommodityData.t)
    (latest : RawSeriesPoint.t) (rest : list RawSeriesPoint.t) (w w' : W) :
  prop_get COMMODITIES (toLowerCase commodity) = Some fn ->
  request (query_url fn "daily") w = (Ok payload, w') ->
  CommodityData.data payload = Some (latest :: rest) ->
  exists a : CommodityAnalysis.t num,
    fetchAnalysis commodity w = (Ok (Some a), w') /\
    let p := prices_of (latest :: rest) in
    let n := length (latest :: rest) in
    forall k : nat, In k [7; 30; 89]%nat ->
      ((k < n)%nat ->
         let c := ((js_index p 0 - js_index p k) / js_index p k) * #100 in
         reported_change a k = Some (Math_round (c * #100) / #100)) /\
      ((n <= k)%nat -> reported_change a k = None).
Proof.
  intros Hfn Hreq Hdata. eexists. split.
  - exact (fetchAnalysis_served _ _ _ _ _ _ _ Hfn Hreq Hdata).
  - intros p n k Hk. rewrite analyse_changes by exact Hk.
    unfold spec_change, raw_change. fold p.
    replace (length p) with n by (unfold p, prices_of; now rewrite length_map).
    split; intros Hn; destruct (decide (k < n)%nat); try lia; reflexivity.
Qed.

Lemma analyse_volatility (commodity : string) (info : option CommodityInfo)
    (payload : CommodityData.t) (latest : RawSeriesPoint.t)
    (series : list RawSeriesPoint.t) :
  CommodityAnalysis.daily
    (CommodityAnalysis.volatility (analyse (num := num) commodity info payload latest series))
  = spec_volatility (prices_of series).
Proof.
  unfold analyse. cbn. rewrite analysed_prices. apply calculateVolatility_spec.
Qed.

(** A figure rounded to 2 decimals is not below zero when the figure is
    not. *)
Lemma round2_not_below_zero `{!NumberOrder num} (x : num) :
  (x <? #0) = false -> (round2 x <? #0) = false.
Proof.
  intros Hx. unfold round2.
  apply over_100_not_below_zero, round_not_below_zero, times_100_not_below_zero, Hx.
Qed.

Lemma spec_volatility_not_below_zero `{!NumberOrder num} (p : list num) (v : num) :
  spec_volatility p = Some v -> (v <? #0) = false.
Proof.
  unfold spec_volatility. destruct (decide (length p < 7)%nat); [discriminate|].
  intros [= <-].
  apply (round2_not_below_zero (_ * #100)), times_100_not_below_zero, sqrt_not_below_zero.
Qed.

(** C4. [MA(period)] is [null] when the series has fewer than [period]
    points and is otherwise the arithmetic mean of its newest [period]
    points, so that two series which agree on their first [period] elements
    have the same [MA(period)]. *)
Theorem moving_average_window (prices : list num) (period : nat) :
  ((length prices < period)%nat -> calculateMA prices period = None) /\
  ((period <= length prices)%nat ->
     calculateMA prices period = Some (arithmetic_mean (firstn period prices))) /\
  (forall prices' : list num,
     (period <= length prices)%nat -> (period <= length prices')%nat ->
     firstn period prices = firstn period prices' ->
     calculateMA prices period = calculateMA prices' period).
Proof.
  assert (Hmean : forall l : list num, (period <= length l)%nat ->
            calculateMA l period = Some (arithmetic_mean (firstn period l))).
  { intros l Hl. rewrite calculateMA_spec. unfold spec_MA.
    destruct (decide (length l < period)%nat); [lia|reflexivity]. }
  split; [|split].
  - intros Hshort. rewrite calculateMA_spec. unfold spec_MA.
    destruct (decide (length prices < period)%nat); [reflexivity|lia].
  - apply Hmean.
  - intros prices' Hlen Hlen' Hsame. rewrite !Hmean by assumption. now rewrite Hsame.
Qed.

(** The moving averages the analysis reports are those of the whole
    series: the points beyond the window, truncated or not, play no part. *)
Lemma analyse_moving_averages (commodity : string) (info : option CommodityInfo)
    (payload : CommodityData.t) (latest : RawSeriesPoint.t)
    (series : list RawSeriesPoint.t) :
  let a := analyse (num := num) commodity info payload latest series in
  CommodityAnalysis.ma7 (CommodityAnalysis.movingAverages a)
  = round2_opt (spec_MA (prices_of series) 7) /\
  CommodityAnalysis.ma30 (CommodityAnalysis.movingAverages a)
  = round2_opt (spec_MA (prices_of series) 30).
Proof.
  unfold analyse. cbn. rewrite analysed_prices, !calculateMA_spec.
  now rewrite !spec_MA_firstn by lia.
Qed.



End Analysis.

(** ** The volatility on the doubles *)

Section VolatilityOnDoubles.
Context {W : Type} `{World W}.
Local Open Scope js_scope.

(** C3, as the code has it. For the series [p[0..n)] the provider serves,
    the volatility the analysis reports is [null] if and only if [n < 7];
    for [n >= 7] it is computed from the population standard deviation of
    the returns [r[i] = (p[i-1] - p[i]) / p[i]] for [i = 1 .. min(n, 30) - 1],
    at most 29 of them: the deviation times 100 is [s], and the reported
    value is [Math.round(s * 100) / 100], in the arithmetic of the doubles.
    That value is never negative: it is at least zero, or it is NaN. *)
Theorem volatility_window (commodity fn : string)
    (payload : CommodityData.t) (latest : RawSeriesPoint.t)
    (rest : list RawSeriesPoint.t) (w w' : W) :
  prop_get COMMODITIES (toLowerCase commodity) = Some fn ->
  request (query_url fn "daily") w = (Ok payload, w') ->
  CommodityData.data payload = Some (latest :: rest) ->
  exists a : CommodityAnalysis.t float,
    fetchAnalysis commodity w = (Ok (Some a), w') /\
    let p := prices_of (latest :: rest) in
    let n := length (latest :: rest) in
    let reported := CommodityAnalysis.daily (CommodityAnalysis.volatility a) in
    let returns := map (relative_return p) (seq 1 (Nat.min n 30 - 1)) in
    (reported = None <-> (n < 7)%nat) /\
    ((7 <= n)%nat ->
       (length returns <= 29)%nat /\
       exists v : float,
         reported = Some v /\
         (let s := population_stdev returns * #100 in
          v = Math_round (s * #100) / #100) /\
         (PrimFloat.is_nan v = true \/ PrimFloat.leb zero v = true)).
Proof.
  intros Hfn Hreq Hdata. eexists. split.
  - exact (fetchAnalysis_served _ _ _ _ _ _ _ Hfn Hreq Hdata).
  - intros p n reported returns.
    assert (Hlen : length p = n) by (unfold p, prices_of; now rewrite length_map).
    assert (Hrep : reported = spec_volatility p) by apply analyse_volatility.
    assert (Hret : returns = spec_returns p)
      by (unfold returns, spec_returns; now rewrite Hlen).
    split.
    + rewrite Hrep. unfold spec_volatility. rewrite Hlen.
      destruct (decide (n < 7)%nat); split; intros; try lia; try discriminate; reflexivity.
    + intros Hn. split.
      * unfold returns. rewrite length_map, length_seq. lia.
      * assert (Hv : reported
                     = Some (Math_round ((population_stdev returns * #100) * #100) / #100)).
        { rewrite Hrep, Hret. unfold spec_volatility. rewrite Hlen.
          destruct (decide (n < 7)%nat); [lia|reflexivity]. }
        eexists. split; [exact Hv|]. split; [reflexivity|].
        apply not_below_zero_double.
        exact (spec_volatility_not_below_zero (num := float) p _
                 (eq_trans (eq_sym Hrep) Hv)).
Qed.

End VolatilityOnDoubles.

(** ** The analysis of series of closes *)

Section Runs.
Import Scripted.
Local Open Scope js_scope.

(** C1 on the eight closes: the 7-day change is reported, the two longer
    ones are [null]. *)
Lemma change_null_boundary_week :
  let w := start (serving "WTI" week) in
  exists a : CommodityAnalysis.t float,
    fetchAnalysis "wti" w = (Ok (Some a), asked "WTI" w) /\
    let p := prices_of (map (point "2025-01-01") week) in
    let n := length (map (point "2025-01-01") week) in
    forall k : nat, In k [7; 30; 89]%nat ->
      ((k < n)%nat ->
         let c := ((js_index p 0 - js_index p k) / js_index p k) * #100 in
         reported_change a k = Some (Math_round (c * #100) / #100)) /\
      ((n <= k)%nat -> reported_change a k = None).
Proof.
  apply (change_null_boundary "wti" "WTI" (payload "WTI" week)
           (point "2025-01-01" "110")
           (map (point "2025-01-01") (tl week))
           (start (serving "WTI" week)) (asked "WTI" (start (serving "WTI" week)))).
  - reflexivity.
  - vm_compute. reflexivity.
  - reflexivity.
Defined.

(** C1, as stated, fails on the doubles.  For the closes that leap from 1
    to 1e306 the 7-day change is the double 1e308: it is finite, and being
    an integer it is its own rounding to 2 decimals.  Times 100 it
    overflows, and the analysis reports [Infinity]. *)
Lemma reported_change_is_not_the_rounding :
  exists (a : CommodityAnalysis.t float) (c : float),
    fst (fetchAnalysis "wti" (start (serving "WTI" leap))) = Ok (Some a) /\
    raw_change (prices_of (map (point "2025-01-01") leap)) 7 = Some c /\
    c = parseFloat "1e308" /\
    PrimFloat.ltb c infinity = true /\
    rounded_to_2_decimals c = c /\
    CommodityAnalysis.day7 (CommodityAnalysis.changes a) = Some infinity /\
    CommodityAnalysis.day7 (CommodityAnalysis.changes a)
    <> Some (rounded_to_2_decimals c).
Proof.
  eexists. eexists. split; [vm_compute; reflexivity|].
  split; [vm_compute; reflexivity|].
  split; [vm_compute; reflexivity|].
  split; [vm_compute; reflexivity|].
  split; [vm_compute; reflexivity|].
  split; [vm_compute; reflexivity|].
  intros Heq. apply (f_equal (option_map Prim2SF)) in Heq.
  vm_compute in Heq. discriminate Heq.
Qed.

(** On the eight closes the 7-day change is 10 percent, the two longer
    ones are [null], and the volatility is 1.07 percent. *)
Example week_figures :
  exists a : CommodityAnalysis.t float,
    fst (fetchAnalysis "wti" (start (serving "WTI" week))) = Ok (Some a) /\
    CommodityAnalysis.changes a = CommodityAnalysis.mk_changes (Some #10) None None /\
    CommodityAnalysis.volatility a
    = CommodityAnalysis.mk_volatility (Some (parseFloat "1.07")) medium /\
    CommodityAnalysis.trend (CommodityAnalysis.signal a) = unknown_trend.
Proof.
  eexists. split; [vm_compute; reflexivity|].
  repeat split; vm_compute; reflexivity.
Qed.

(** C3 on the eight closes: seven returns, and a volatility that is at
    least zero or NaN. *)
Lemma volatility_window_week :
  let w := start (serving "WTI" week) in
  exists a : CommodityAnalysis.t float,
    fetchAnalysis "wti" w = (Ok (Some a), asked "WTI" w) /\
    let p := prices_of (map (point "2025-01-01") week) in
    let n := length (map (point "2025-01-01") week) in
    let reported := CommodityAnalysis.daily (CommodityAnalysis.volatility a) in
    let returns := map (relative_return p) (seq 1 (Nat.min n 30 - 1)) in
    (reported = None <-> (n < 7)%nat) /\
    ((7 <= n)%nat ->
       (length returns <= 29)%nat /\
       exists v : float,
         reported = Some v /\
         (let s := population_stdev returns * #100 in
          v = Math_round (s * #100) / #100) /\
         (PrimFloat.is_nan v = true \/ PrimFloat.leb zero v = true)).
Proof.
  apply (volatility_window "wti" "WTI" (payload "WTI" week)
           (point "2025-01-01" "110")
           (map (point "2025-01-01") (tl week))
           (start (serving "WTI" week)) (asked "WTI" (start (serving "WTI" week)))).
  - reflexivity.
  - vm_compute. reflexivity.
  - reflexivity.
Defined.

(** C3, as stated, fails on the doubles. All seven closes are positive;
    the newest return, [(1e308 - 0.1) / 0.1], overflows to [Infinity], the
    mean of the returns is [Infinity], the deviation of that return from it
    is NaN, and so is the reported volatility: it is not at least zero. *)
Lemma volatility_of_surge_is_not_a_number :
  let w := start (serving "WTI" surge) in
  exists (a : CommodityAnalysis.t float) (v : float),
    fst (fetchAnalysis "wti" w) = Ok (Some a) /\
    forallb (fun p => #0 <? p) (prices_of (map (point "2025-01-01") surge)) = true /\
    daily_returns (prices_of (map (point "2025-01-01") surge))
    = infinity :: repeat #0 5 /\
    CommodityAnalysis.daily (CommodityAnalysis.volatility a) = Some v /\
    PrimFloat.is_nan v = true /\
    PrimFloat.leb #0 v = false.
Proof.
  eexists. eexists. split; [vm_compute; reflexivity|].
  split; [vm_compute; reflexivity|].
  split; [vm_compute; reflexivity|].
  split; [vm_compute; reflexivity|].
  split; vm_compute; reflexivity.
Qed.

(** On the ninety closes the three changes are 10, 22.22 and 37.5 percent,
    the 7-day average 105.71 and the volatility 1.24 percent. *)
Example quarter_figures :
  exists a : CommodityAnalysis.t float,
    fst (fetchAnalysis "copper" (start (serving "COPPER" quarter))) = Ok (Some a) /\
    CommodityAnalysis.changes a
    = CommodityAnalysis.mk_changes
        (Some (parseFloat "10")) (Some (parseFloat "22.22")) (Some (parseFloat "37.5")) /\
    CommodityAnalysis.ma7 (CommodityAnalysis.movingAverages a) = Some (parseFloat "105.71") /\
    CommodityAnalysis.volatility a
    = CommodityAnalysis.mk_volatility (Some (parseFloat "1.24")) medium /\
    CommodityAnalysis.trend (CommodityAnalysis.signal a) = bullish.
Proof.
  eexists. split; [vm_compute; reflexivity|].
  repeat split; vm_compute; reflexivity.
Qed.

(** On the ninety closes the three reported changes are the changes
    rounded to 2 decimals. *)
Example quarter_changes_are_rounded :
  exists a : CommodityAnalysis.t float,
    fst (fetchAnalysis "copper" (start (serving "COPPER" quarter))) = Ok (Some a) /\
    forall k : nat, In k [7; 30; 89]%nat ->
      reported_change a k
      = option_map rounded_to_2_decimals
          (raw_change (prices_of (map (point "2025-01-01") quarter)) k).
Proof.
  eexists. split; [vm_compute; reflexivity|].
  intros k [<-|[<-|[<-|[]]]]; vm_compute; reflexivity.
Qed.



End Runs.

(** ** The cache *)

Section CacheFacts.
Context {W : Type} `{World W} {T : Type}.
Import Cache.

Lemma is_fresh_dec (store : gmap string (CacheEntry T)) (key : string) (t : Z) :
  {is_fresh store key t} + {~ is_fresh store key t}.
Proof.
  unfold is_fresh. destruct (store !! key) as [e|].
  - destruct (Z_lt_dec (t - timestamp e) (ttlMs e)) as [Hlt|Hge].
    + left. now exists e.
    + right. intros (e' & [= <-] & Hlt). contradiction.
  - right. intros (e' & Hnone & _). discriminate.
Qed.

(** A hit: the stored value, the state untouched, whatever the fetcher. *)
Lemma get_hit (key : string) (fetcher : M (State W T) T) (ttl : Z)
    (store : gmap string (CacheEntry T)) (w : W) (e : CacheEntry T) :
  store !! key = Some e -> Date_now w - timestamp e < ttlMs e ->
  get key fetcher ttl (store, w) = (Ok (data e), (store, w)).
Proof.
  intros Hkey Hfresh. unfold get, bind, store_get, now. cbn. rewrite Hkey. cbn.
  destruct (Z.ltb_spec (Date_now w - timestamp e) (ttlMs e)); [reflexivity|lia].
Qed.

(** A miss: [get] is [refresh]. *)
Lemma get_miss (key : string) (fetcher : M (State W T) T) (ttl : Z)
    (store : gmap string (CacheEntry T)) (w : W) :
  ~ is_fresh store key (Date_now w) ->
  get key fetcher ttl (store, w) = refresh key fetcher ttl (store, w).
Proof.
  intros Hstale. unfold get, bind, store_get, now, is_fresh in *. cbn.
  destruct (store !! key) as [e|]; [|reflexivity]. cbn.
  destruct (Z.ltb_spec (Date_now w - timestamp e) (ttlMs e)) as [Hlt|Hge]; [|reflexivity].
  exfalso. apply Hstale. now exists e.
Qed.

(** [refresh] runs the fetcher once, from the state it is called in; a
    result is stored under the key with the time at which the fetcher
    settled and the ttl of this call, a rejection is passed on. *)
Lemma refresh_run (key : string) (fetcher : M (State W T) T) (ttl : Z)
    (st : State W T) :
  refresh key fetcher ttl st
  = match fetcher st with
    | (Ok d, (store', w')) =>
        (Ok d, (<[key := mk_entry d (Date_now w') ttl]> store', w'))
    | (Throw message, st') => (Throw message, st')
    end.
Proof.
  unfold refresh, bind, now, store_set, ret.
  destruct (fetcher st) as [[d|message] [store' w']]; reflexivity.
Qed.

Lemma get_count (key : string) (fetcher : M (State W T) T) (ttl : Z)
    (store : gmap string (CacheEntry T)) (w : W) (count : W -> nat) :
  counts_calls count fetcher ->
  count (snd (snd (get key fetcher ttl (store, w))))
  = if is_fresh_dec store key (Date_now w) then count w else S (count w).
Proof.
  intros Hcount. destruct (is_fresh_dec store key (Date_now w)) as [Hfresh|Hstale].
  - destruct Hfresh as (e & Hkey & Hlt). now rewrite (get_hit _ _ _ _ _ e).
  - rewrite get_miss, refresh_run by exact Hstale.
    pose proof (Hcount (store, w)) as Hone. cbn in Hone. rewrite <- Hone.
    destruct (fetcher (store, w)) as [[d|message] [store' w']]; reflexivity.
Qed.

(** C2. [get] returns the stored value without invoking the fetcher if
    and only if an entry for the key exists and
    [now - entry.timestamp < entry.ttlMs]; otherwise it invokes the fetcher
    exactly once, stores its result under the key with the time at which
    it settled and the given ttl, over any previous entry, and returns it.
    Hence a second call within the ttl does not invoke a fetcher, and a
    call once the ttl has elapsed does. *)
Theorem get_or_compute (key : string) (fetcher : M (State W T) T) (ttl : Z)
    (store : gmap string (CacheEntry T)) (w : W) (count : W -> nat) :
  counts_calls count fetcher ->
  (forall e : CacheEntry T,
     store !! key = Some e -> Date_now w - timestamp e < ttlMs e ->
     get key fetcher ttl (store, w) = (Ok (data e), (store, w))) /\
  (~ is_fresh store key (Date_now w) ->
     get key fetcher ttl (store, w)
     = match fetcher (store, w) with
       | (Ok d, (store', w')) =>
           (Ok d, (<[key := mk_entry d (Date_now w') ttl]> store', w'))
       | (Throw message, st') => (Throw message, st')
       end) /\
  (is_fresh store key (Date_now w) <->
     count (snd (snd (get key fetcher ttl (store, w)))) = count w) /\
  (~ is_fresh store key (Date_now w) <->
     count (snd (snd (get key fetcher ttl (store, w)))) = S (count w)) /\
  (forall (d : T) (store' : gmap string (CacheEntry T)) (w' : W),
     ~ is_fresh store key (Date_now w) ->
     fetcher (store, w) = (Ok d, (store', w')) ->
     let cached := <[key := mk_entry d (Date_now w') ttl]> store' in
     snd (get key fetcher ttl (store, w)) = (cached, w') /\
     forall (fetcher2 : M (State W T) T) (ttl2 : Z) (later : W),
       (Date_now later - Date_now w' < ttl ->
          get key fetcher2 ttl2 (cached, later) = (Ok d, (cached, later))) /\
       (ttl <= Date_now later - Date_now w' ->
          get key fetcher2 ttl2 (cached, later)
          = refresh key fetcher2 ttl2 (cached, later))).
Proof.
  intros Hcount. split; [|split; [|split; [|split]]].
  - intros e Hkey Hlt. now apply get_hit.
  - intros Hstale. now rewrite get_miss, refresh_run.
  - rewrite (get_count _ _ _ _ _ _ Hcount).
    destruct (is_fresh_dec store key (Date_now w)); split; intros; try lia; tauto.
  - rewrite (get_count _ _ _ _ _ _ Hcount).
    destruct (is_fresh_dec store key (Date_now w)); split; intros; try lia; tauto.
  - intros d store' w' Hstale Hrun cached. split.
    + now rewrite get_miss, refresh_run, Hrun.
    + intros fetcher2 ttl2 later. split.
      * intros Hwithin.
        apply (get_hit _ _ _ _ _ (mk_entry d (Date_now w') ttl)); [|exact Hwithin].
        apply lookup_insert_eq.
      * intros Helapsed. apply get_miss.
        intros (e & Hkey & Hlt). unfold cached in Hkey.
        rewrite lookup_insert_eq in Hkey. injection Hkey as <-. cbn in Hlt. lia.
Qed.

(** C9. On the miss path, when the fetcher rejects, [get] rejects with the
    same error and writes nothing: the state is the one the fetcher left,
    and for a fetcher that does not touch the cache the store is the one
    [get] was called with. *)
Theorem rejected_fetcher_leaves_cache (key : string) (fetcher : M (State W T) T)
    (ttl : Z) (store : gmap string (CacheEntry T)) (w : W)
    (message : string) (st' : State W T) :
  ~ is_fresh store key (Date_now w) ->
  fetcher (store, w) = (Throw message, st') ->
  get key fetcher ttl (store, w) = (Throw message, st') /\
  (forall f : M W T, fetcher = external f -> fst st' = store).
Proof.
  intros Hstale Hrun. split.
  - now rewrite get_miss, refresh_run, Hrun.
  - intros f ->. unfold external in Hrun. cbn in Hrun.
    destruct (f w) as [r w']. now injection Hrun as _ <-.
Qed.

(** C8. [getAge] returns [null] when the store has no entry for the key
    and otherwise the whole seconds elapsed since the entry was stored,
    rounded down, which is 0 for an entry stored at this very time.  It
    leaves the state as it is.  The ttl of the entry plays no part: an
    expired entry still reports its age. *)
Theorem getAge_reads_age (key : string) (store : gmap string (CacheEntry T)) (w : W) :
  let elapsed (e : CacheEntry T) := Date_now w - timestamp e in
  getAge key (store, w)
  = (Ok (match store !! key with
         | None => None
         | Some e => Some (elapsed e / 1000)
         end), (store, w)) /\
  (forall (e : CacheEntry T) (age : Z),
     store !! key = Some e ->
     (fst (getAge key (store, w)) = Ok (Some age)
      <-> 1000 * age <= elapsed e < 1000 * age + 1000)) /\
  (forall (d : T) (ttl : Z),
     fst (getAge key (<[key := mk_entry d (Date_now w) ttl]> store, w)) = Ok (Some 0)) /\
  (forall e : CacheEntry T,
     store !! key = Some e -> ttlMs e <= elapsed e ->
     fst (getAge key (store, w)) = Ok (Some (elapsed e / 1000))) /\
  (forall (d : T) (t ttl ttl' : Z),
     fst (getAge key (<[key := mk_entry d t ttl]> store, w))
     = fst (getAge key (<[key := mk_entry d t ttl']> store, w))).
Proof.
  intros elapsed.
  assert (Hrun : forall (s : gmap string (CacheEntry T)),
            getAge key (s, w)
            = (Ok (match s !! key with
                   | None => None
                   | Some e => Some ((Date_now w - timestamp e) / 1000)
                   end), (s, w))).
  { intros s. unfold getAge, bind, store_get, now. cbn.
    destruct (s !! key); reflexivity. }
  split; [apply Hrun|]. split; [|split; [|split]].
  - intros e age Hkey. rewrite Hrun, Hkey. cbn. fold (elapsed e).
    pose proof (Z.div_mod (elapsed e) 1000 ltac:(lia)) as Hdiv.
    pose proof (Z.mod_pos_bound (elapsed e) 1000 ltac:(lia)) as Hmod.
    split.
    + intros [= <-]. lia.
    + intros Hage. f_equal. f_equal. nia.
  - intros d ttl. rewrite Hrun, lookup_insert_eq. cbn.
    now rewrite Z.sub_diag.
  - intros e Hkey _. now rewrite Hrun, Hkey.
  - intros d t ttl ttl'. now rewrite !Hrun, !lookup_insert_eq.
Qed.

End CacheFacts.

(** ** The fetchers *)

Section FetcherFacts.
Context {num : Type} `{JsNumber num} {W : Type} `{World W}.

(** C6, as the code has it. For a known symbol the two single-symbol
    operations never look at the status of the response; the body alone
    decides.  A failed request makes the operation reject with the error of
    the request; a body that is not JSON, with the parse error; the body
    [null], with the [TypeError] of reading [data.data].  A payload without
    a series, or with an empty one, yields [null], and a payload with a
    non-empty series is returned as data. *)
Theorem single_symbol_settles_by_body (commodity fn : string) (interval : Interval)
    (limit : Z) (r : Outcome Response) (w w' : W) :
  prop_get COMMODITIES (toLowerCase commodity) = Some fn ->
  fetch (query_url fn (interval_name interval)) w = (r, w') ->
  match r with
  | Throw message =>
      fetchCommodity (num := num) commodity interval w = (Throw message, w') /\
      fetchHistorical (num := num) commodity interval limit w = (Throw message, w')
  | Ok res =>
      match body res with
      | Malformed message =>
          fetchCommodity (num := num) commodity interval w = (Throw message, w') /\
          fetchHistorical (num := num) commodity interval limit w = (Throw message, w')
      | Json_null =>
          fetchCommodity (num := num) commodity interval w
          = (Throw null_data_message, w') /\
          fetchHistorical (num := num) commodity interval limit w
          = (Throw null_data_message, w')
      | Json payload =>
          match CommodityData.data payload with
          | None | Some [] =>
              fetchCommodity (num := num) commodity interval w = (Ok None, w') /\
              fetchHistorical (num := num) commodity interval limit w = (Ok None, w')
          | Some (latest :: rest) =>
              fetchCommodity commodity interval w
              = (Ok (Some (latest_price payload latest)), w') /\
              fetchHistorical commodity interval limit w
              = (Ok (Some (history (latest :: rest) limit)), w')
          end
      end
  end.
Proof.
  intros Hfn Hfetch. unfold fetchCommodity, fetchHistorical.
  rewrite Hfn, (catalog_function_nonempty _ _ Hfn).
  unfold bind. rewrite Hfetch.
  destruct r as [res|message]; [|split; reflexivity].
  unfold Response_json.
  destruct (body res) as [message|payload|]; [split; reflexivity| |split; reflexivity].
  unfold ret.
  destruct (CommodityData.data payload) as [[|latest rest]|]; split; reflexivity.
Qed.

(** The two single-symbol operations, when the provider answers the
    request for a known symbol with a payload that carries a non-empty
    series. *)
Lemma fetchCommodity_served (commodity fn : string) (interval : Interval)
    (payload : CommodityData.t) (latest : RawSeriesPoint.t)
    (rest : list RawSeriesPoint.t) (w w' : W) :
  prop_get COMMODITIES (toLowerCase commodity) = Some fn ->
  request (query_url fn (interval_name interval)) w = (Ok payload, w') ->
  CommodityData.data payload = Some (latest :: rest) ->
  fetchCommodity (num := num) commodity interval w
  = (Ok (Some (latest_price payload latest)), w').
Proof.
  intros Hfn Hreq Hdata. unfold fetchCommodity. now run_served Hfn Hreq Hdata.
Qed.

Lemma fetchHistorical_served (commodity fn : string) (interval : Interval) (limit : Z)
    (payload : CommodityData.t) (latest : RawSeriesPoint.t)
    (rest : list RawSeriesPoint.t) (w w' : W) :
  prop_get COMMODITIES (toLowerCase commodity) = Some fn ->
  request (query_url fn (interval_name interval)) w = (Ok payload, w') ->
  CommodityData.data payload = Some (latest :: rest) ->
  fetchHistorical (num := num) commodity interval limit w
  = (Ok (Some (history (latest :: rest) limit)), w').
Proof.
  intros Hfn Hreq Hdata. unfold fetchHistorical. now run_served Hfn Hreq Hdata.
Qed.

(** One iteration of the bulk loop never rejects: it records how the fetch
    of the symbol settled, and pauses. *)
Lemma fetchAll_step_run (interval : Interval) (commodity : string)
    (results : gmap string (PriceOrError num)) (w : W) :
  fetchAll_step interval commodity results w
  = (Ok (<[commodity := recorded (fst (fetchCommodity commodity interval w))]> results),
     sleep 200 (snd (fetchCommodity commodity interval w))).
Proof.
  unfold fetchAll_step, bind, try_catch, delay, ret, recorded.
  destruct (fetchCommodity commodity interval w) as [[[p|]|message] w1]; reflexivity.
Qed.

Lemma fetchAll_loop_run (interval : Interval) (commodities : list string) :
  NoDup commodities ->
  forall (results : gmap string (PriceOrError num)) (w : W),
  exists results' : gmap string (PriceOrError num),
    fetchAll_loop interval commodities results w
    = (Ok results', world_after (num := num) interval commodities w) /\
    (forall k : string, ~ In k commodities -> results' !! k = results !! k) /\
    (forall (done : list string) (c : string) (rest : list string),
       commodities = done ++ c :: rest ->
       results' !! c
       = Some (recorded (fst (fetchCommodity c interval
                                (world_after (num := num) interval done w))))).
Proof.
  induction 1 as [|c0 l Hfresh Hnodup IH]; intros results w.
  - exists results. split; [reflexivity|]. split; [reflexivity|].
    intros [|? ?] ? ? Heq; discriminate Heq.
  - cbn [fetchAll_loop world_after]. unfold bind at 1. rewrite fetchAll_step_run.
    destruct (IH (<[c0 := recorded (fst (fetchCommodity c0 interval w))]> results)
                 (sleep 200 (snd (fetchCommodity (num := num) c0 interval w))))
      as (results' & Hrun & Hother & Hrec).
    exists results'. split; [exact Hrun|]. split.
    + intros k Hk. rewrite Hother by (intros Hin; apply Hk; now right).
      apply lookup_insert_ne. intros ->. apply Hk. now left.
    + intros done c rest Heq.
      destruct done as [|d done]; cbn in Heq; injection Heq as Hhead Htail.
      * subst c. rewrite Hother by (now rewrite <- list_elem_of_In).
        apply lookup_insert_eq.
      * subst d. cbn [world_after]. exact (Hrec done c rest Htail).
Qed.

Lemma bulk_symbols_listed :
  bulk_symbols
  = ["wti"; "brent"; "natural_gas"; "copper"; "aluminum";
     "wheat"; "corn"; "coffee"; "cotton"; "sugar"].
Proof. reflexivity. Qed.

Lemma bulk_symbols_NoDup : NoDup bulk_symbols.
Proof.
  rewrite bulk_symbols_listed.
  repeat (constructor; [rewrite list_elem_of_In; cbn; intuition discriminate|]).
  constructor.
Qed.

(** C7. For every interval the bulk operation returns, without ever
    rejecting, a mapping with exactly one entry per symbol of the catalog,
    that is, per commodity the catalog describes: the ten keys of
    [COMMODITY_INFO], which are the keys of [COMMODITIES] but [all].  The
    entry of a symbol records how the fetch of that symbol settled and
    nothing else: a price, the marker [No data available], or, when the
    fetch threw, a marker with the message of the error.  The symbols
    fetched before and after a failing one get their own entries. *)
Theorem bulk_isolates_failures (interval : Interval) (w : W) :
  exists results : gmap string (PriceOrError num),
    fetchAllCommodities interval w
    = (Ok results, world_after (num := num) interval bulk_symbols w) /\
    bulk_symbols = Object_keys COMMODITY_INFO /\
    (forall k : string, is_Some (results !! k) <-> In k bulk_symbols) /\
    (forall (done : list string) (c : string) (rest : list string),
       bulk_symbols = done ++ c :: rest ->
       results !! c
       = Some (recorded (fst (fetchCommodity c interval
                                (world_after (num := num) interval done w))))).
Proof.
  destruct (fetchAll_loop_run interval bulk_symbols bulk_symbols_NoDup ∅ w)
    as (results & Hrun & Hother & Hrec).
  exists results. split; [exact Hrun|]. split; [reflexivity|]. split; [|exact Hrec].
  intros k. split.
  - intros Hsome. destruct (in_dec string_dec k bulk_symbols) as [Hin|Hout]; [exact Hin|].
    rewrite Hother, lookup_empty in Hsome by exact Hout.
    now destruct Hsome.
  - intros Hin. apply in_split in Hin as (done & rest & Heq).
    rewrite (Hrec _ _ _ Heq). eauto.
Qed.

(** C10. [all] is a key of [COMMODITIES] and not of [COMMODITY_INFO]. The
    single-symbol operations accept it: when the provider serves a
    non-empty daily series for [ALL_COMMODITIES], [fetchAnalysis] returns
    an analysis, whose category is [Unknown], and [fetchCommodity] and
    [fetchHistorical] return data.  The bulk operation alone leaves it out:
    it iterates over every other key of [COMMODITIES]. *)
Theorem all_is_accepted_by_single_symbol_operations (payload : CommodityData.t)
    (latest : RawSeriesPoint.t) (rest : list RawSeriesPoint.t) (limit : Z) (w w' : W) :
  request (query_url "ALL_COMMODITIES" "daily") w = (Ok payload, w') ->
  CommodityData.data payload = Some (latest :: rest) ->
  prop_get COMMODITIES "all" = Some "ALL_COMMODITIES" /\
  prop_get COMMODITY_INFO "all" = None /\
  (exists a : CommodityAnalysis.t num,
     fetchAnalysis "all" w = (Ok (Some a), w') /\
     CommodityAnalysis.commodity a = "all" /\
     CommodityAnalysis.category a = "Unknown") /\
  fetchCommodity "all" daily w = (Ok (Some (latest_price payload latest)), w') /\
  fetchHistorical "all" daily limit w = (Ok (Some (history (latest :: rest) limit)), w') /\
  ~ In "all" bulk_symbols /\
  (forall k : string, In k (Object_keys COMMODITIES) -> k <> "all" -> In k bulk_symbols).
Proof.
  intros Hreq Hdata.
  split; [reflexivity|]. split; [reflexivity|]. split; [|split; [|split; [|split]]].
  - eexists. split.
    + apply (fetchAnalysis_served "all" "ALL_COMMODITIES" payload latest rest w w');
        [reflexivity|exact Hreq|exact Hdata].
    + split; reflexivity.
  - apply (fetchCommodity_served "all" "ALL_COMMODITIES" daily payload latest rest w w');
      [reflexivity|exact Hreq|exact Hdata].
  - apply (fetchHistorical_served "all" "ALL_COMMODITIES" daily limit payload latest rest w w');
      [reflexivity|exact Hreq|exact Hdata].
  - rewrite bulk_symbols_listed. cbn. intuition discriminate.
  - intros k Hk Hne. rewrite bulk_symbols_listed. cbn in Hk |- *.
    intuition congruence.
Qed.

End FetcherFacts.

(** ** Runs against scripted providers *)

Section ScriptedRuns.
Import Scripted Cache.

(** C6, as stated, fails. A gateway answers 502 with an HTML page:
    [res.json()] rejects, and so do both operations, instead of returning
    [null]. *)
Lemma malformed_body_rejects :
  let page := mk_response 502 (Malformed "Unexpected token < in JSON at position 0") in
  let w := start (answering page) in
  fst (fetchCommodity (num := float) "wti" daily w)
  = Throw "Unexpected token < in JSON at position 0" /\
  fst (fetchHistorical (num := float) "wti" monthly 12 w)
  = Throw "Unexpected token < in JSON at position 0" /\
  fst (fetchCommodity (num := float) "wti" daily w) <> Ok None /\
  fst (fetchHistorical (num := float) "wti" monthly 12 w) <> Ok None.
Proof.
  cbv zeta. repeat split; try (vm_compute; reflexivity); vm_compute; discriminate.
Qed.

(** A 200 whose body is the JSON value [null]: [res.json()] fulfils, and
    the read of [data.data] throws. *)
Example null_body_rejects :
  let w := start (answering (mk_response 200 Json_null)) in
  fst (fetchCommodity (num := float) "wti" daily w) = Throw null_data_message /\
  fst (fetchHistorical (num := float) "wti" monthly 12 w) = Throw null_data_message /\
  fst (fetchAnalysis (num := float) "wti" w) = Throw null_data_message /\
  fst (fetchCommoditiesIndex (num := float) w) = Throw null_data_message /\
  (exists r : gmap string (PriceOrError float),
     fst (fetchAllCommodities daily w) = Ok r /\
     r !! "wti" = Some (error_entry null_data_message)).
Proof.
  cbv zeta. repeat split; try (vm_compute; reflexivity).
  eexists. split; vm_compute; reflexivity.
Qed.

(** The status is not looked at: a 503 that carries a series is taken as
    data. *)
Example status_is_ignored :
  fst (fetchCommodity (num := float) "wti" daily
         (start (answering (mk_response 503 (Json (payload "WTI" week))))))
  = Ok (Some (CommodityPrice.mk "WTI" (parseFloat "110") "USD" "2025-01-01" "daily")).
Proof. vm_compute. reflexivity. Qed.

(** C6 on a 503 whose body is a note without a series: both operations
    return [null]. *)
Lemma single_symbol_settles_by_body_note :
  let busy := mk_response 503 (Json note) in
  let w := start (answering busy) in
  let w' := mk_world 0 (answering busy) [query_url "WTI" "daily"] in
  fetchCommodity (num := float) "wti" daily w = (Ok None, w') /\
  fetchHistorical (num := float) "wti" daily 12 w = (Ok None, w').
Proof.
  exact (single_symbol_settles_by_body (num := float) "wti" "WTI" daily 12
           (Ok (mk_response 503 (Json note)))
           (start (answering (mk_response 503 (Json note))))
           (mk_world 0 (answering (mk_response 503 (Json note))) [query_url "WTI" "daily"])
           eq_refl eq_refl).
Defined.

(** C10 on a provider that serves the eight closes for
    [ALL_COMMODITIES]. *)
Lemma all_is_accepted_week :
  let w := start (serving "ALL_COMMODITIES" week) in
  let w' := asked "ALL_COMMODITIES" w in
  let series := map (point "2025-01-01") week in
  prop_get COMMODITIES "all" = Some "ALL_COMMODITIES" /\
  prop_get COMMODITY_INFO "all" = None /\
  (exists a : CommodityAnalysis.t float,
     fetchAnalysis "all" w = (Ok (Some a), w') /\
     CommodityAnalysis.commodity a = "all" /\
     CommodityAnalysis.category a = "Unknown") /\
  fetchCommodity "all" daily w
  = (Ok (Some (latest_price (payload "ALL_COMMODITIES" week) (point "2025-01-01" "110"))), w') /\
  fetchHistorical "all" daily 3 w = (Ok (Some (history series 3)), w') /\
  ~ In "all" bulk_symbols /\
  (forall k : string, In k (Object_keys COMMODITIES) -> k <> "all" -> In k bulk_symbols).
Proof.
  apply (all_is_accepted_by_single_symbol_operations (num := float)
           (payload "ALL_COMMODITIES" week) (point "2025-01-01" "110")
           (map (point "2025-01-01") (tl week)) 3
           (start (serving "ALL_COMMODITIES" week))
           (asked "ALL_COMMODITIES" (start (serving "ALL_COMMODITIES" week)))).
  - vm_compute. reflexivity.
  - reflexivity.
Defined.

(** The bulk operation when the provider is out of reach for Brent only:
    Brent gets the marker with the message, its neighbours their prices. *)
Example bulk_with_one_failure :
  let provider url :=
    if String.eqb url (daily_url "BRENT") then Throw "socket hang up"
    else Ok (mk_response 200 (Json (payload "X" week))) in
  let results := fst (fetchAllCommodities (num := float) daily (start provider)) in
  match results with
  | Ok r =>
      r !! "wti" = Some (price_entry (CommodityPrice.mk "X" (parseFloat "110") "USD" "2025-01-01" "daily")) /\
      r !! "brent" = Some (error_entry "socket hang up") /\
      r !! "natural_gas" = Some (price_entry (CommodityPrice.mk "X" (parseFloat "110") "USD" "2025-01-01" "daily")) /\
      r !! "all" = None /\
      size r = 10%nat
  | Throw _ => False
  end.
Proof. vm_compute. repeat split; reflexivity. Qed.

(** Every run of the status fetcher makes one request. *)
Lemma status_fetcher_counted : counts_calls request_count status_fetcher.
Proof.
  intros [store w]. unfold request_count, status_fetcher, external, bind. cbn.
  destruct (provider w "https://status.example/"); cbn; rewrite length_app; cbn; lia.
Defined.

(** C2 on an empty cache: the first call makes one request and stores
    the status; a call within the ttl returns it from the store; a call
    once the ttl has elapsed makes another request. *)
Lemma get_or_compute_scripted :
  let w0 := start (answering (mk_response 200 (Malformed "Unexpected end of JSON input"))) in
  exists (cached : gmap string (CacheEntry Z)) (w1 : world),
    get "k" status_fetcher 1000 (∅, w0) = (Ok 200, (cached, w1)) /\
    request_count w1 = 1%nat /\
    (forall later : world,
       clock later - clock w1 < 1000 ->
       get "k" status_fetcher 1000 (cached, later) = (Ok 200, (cached, later))) /\
    (forall later : world,
       1000 <= clock later - clock w1 ->
       request_count (snd (snd (get "k" status_fetcher 1000 (cached, later))))
       = S (request_count later)).
Proof.
  cbv zeta.
  set (w0 := start (answering (mk_response 200 (Malformed "Unexpected end of JSON input")))).
  set (w1 := mk_world 0 (answering (mk_response 200 (Malformed "Unexpected end of JSON input"))) ["https://status.example/"]).
  assert (Hstale : ~ is_fresh (T := Z) ∅ "k" (Date_now w0)).
  { intros (e & Hkey & _). discriminate Hkey. }
  destruct (get_or_compute "k" status_fetcher 1000 ∅ w0 request_count status_fetcher_counted)
    as (_ & Hmiss & _ & _ & Hhence).
  destruct (Hhence 200 ∅ w1 Hstale eq_refl) as [Hstate Hlater].
  cbv zeta in Hlater. rewrite (Hmiss Hstale) in Hstate. cbn in Hstate.
  eexists _, w1.
  split; [rewrite (Hmiss Hstale); cbn; reflexivity|].
  split; [reflexivity|]. split.
  - intros later Hwithin. exact (proj1 (Hlater status_fetcher 1000 later) Hwithin).
  - intros later Helapsed.
    etransitivity.
    + apply (f_equal (fun r => request_count (snd (snd r)))).
      exact (proj2 (Hlater status_fetcher 1000 later) Helapsed).
    + rewrite refresh_run.
      unfold request_count, status_fetcher, external, bind. cbn.
      destruct (provider later "https://status.example/");
        cbn; rewrite length_app; cbn; lia.
Defined.

(** C9 on a stale entry and a provider out of reach: the call rejects
    and the stale entry stays. *)
Lemma rejected_fetcher_scripted :
  let w0 := start (unreachable "getaddrinfo ENOTFOUND") in
  let stale : gmap string (CacheEntry Z) := {[ "k" := mk_entry 7 (-5000) 1000 ]} in
  let w1 := mk_world 0 (unreachable "getaddrinfo ENOTFOUND") ["https://status.example/"] in
  get "k" status_fetcher 1000 (stale, w0) = (Throw "getaddrinfo ENOTFOUND", (stale, w1)) /\
  (forall f : M world Z, status_fetcher = external f -> fst (stale, w1) = stale).
Proof.
  cbv zeta.
  apply (rejected_fetcher_leaves_cache "k" status_fetcher 1000
           {[ "k" := mk_entry 7 (-5000) 1000 ]}
           (start (unreachable "getaddrinfo ENOTFOUND"))).
  - intros (e & Hkey & Hlt). rewrite lookup_singleton_eq in Hkey.
    injection Hkey as <-. cbn in Hlt. lia.
  - reflexivity.
Defined.

End ScriptedRuns.

(** * Further properties *)

(** ** The requests the fetchers make *)

Section FetcherRequests.
Context {num : Type} `{JsNumber num} {W : Type} `{World W}.

(** What a fetcher does to the world is what its one request does. *)
Lemma single_request_world {A : Type} (url : string)
    (k : option CommodityData.t -> M W A) (w : W) :
  (forall (d : option CommodityData.t) (w1 : W), snd (k d w1) = w1) ->
  snd (bind (fetch url) (fun res => bind (Response_json res) k) w) = snd (fetch url w).
Proof.
  intros Hk. unfold bind, Response_json, throw, ret.
  destruct (fetch url w) as [[res|message] w1]; [|reflexivity].
  destruct (body res) as [message|payload|]; [reflexivity| |apply Hk].
  apply Hk.
Qed.

Lemma fetchCommodity_world (commodity : string) (interval : Interval) (w : W) :
  snd (fetchCommodity (num := num) commodity interval w)
  = match prop_get COMMODITIES (toLowerCase commodity) with
    | Some fn => snd (fetch (query_url fn (interval_name interval)) w)
    | None => w
    end.
Proof.
  unfold fetchCommodity.
  destruct (prop_get COMMODITIES (toLowerCase commodity)) as [fn|] eqn:Hfn; [|reflexivity].
  rewrite (catalog_function_nonempty _ _ Hfn).
  apply single_request_world.
  intros [d|] w1; [|reflexivity].
  destruct (CommodityData.data d) as [[|latest rest]|]; reflexivity.
Qed.

Lemma fetchHistorical_world (commodity : string) (interval : Interval) (limit : Z) (w : W) :
  snd (fetchHistorical (num := num) commodity interval limit w)
  = match prop_get COMMODITIES (toLowerCase commodity) with
    | Some fn => snd (fetch (query_url fn (interval_name interval)) w)
    | None => w
    end.
Proof.
  unfold fetchHistorical.
  destruct (prop_get COMMODITIES (toLowerCase commodity)) as [fn|] eqn:Hfn; [|reflexivity].
  rewrite (catalog_function_nonempty _ _ Hfn).
  apply single_request_world.
  intros [d|] w1; [|reflexivity].
  destruct (CommodityData.data d) as [[|latest rest]|]; reflexivity.
Qed.

Lemma fetchAnalysis_world (commodity : string) (w : W) :
  snd (fetchAnalysis (num := num) commodity w)
  = match prop_get COMMODITIES (toLowerCase commodity) with
    | Some fn => snd (fetch (query_url fn "daily") w)
    | None => w
    end.
Proof.
  unfold fetchAnalysis.
  destruct (prop_get COMMODITIES (toLowerCase commodity)) as [fn|] eqn:Hfn; [|reflexivity].
  rewrite (catalog_function_nonempty _ _ Hfn).
  apply single_request_world.
  intros [d|] w1; [|reflexivity].
  destruct (CommodityData.data d) as [[|latest rest]|]; reflexivity.
Qed.

Lemma fetchCommoditiesIndex_world (w : W) :
  snd (fetchCommoditiesIndex (num := num) w)
  = snd (fetch (query_url "ALL_COMMODITIES" "monthly") w).
Proof.
  unfold fetchCommoditiesIndex. apply single_request_world.
  intros [d|] w1; [|reflexivity].
  destruct (CommodityData.data d) as [[|latest rest]|]; reflexivity.
Qed.

(** X1. Each single-symbol fetcher makes exactly one request for a symbol
    of the catalog, for the function of the symbol, however the request
    settles and whatever the body is.  [fetchCommodity] and
    [fetchHistorical] ask for the given interval, [fetchAnalysis] always
    for the daily series, and [fetchCommoditiesIndex] always for the
    monthly series of [ALL_COMMODITIES]. *)
Theorem single_symbol_requests (log : W -> list string) (commodity fn : string)
    (interval : Interval) (limit : Z) (w : W) :
  logs_requests log ->
  prop_get COMMODITIES (toLowerCase commodity) = Some fn ->
  log (snd (fetchCommodity (num := num) commodity interval w))
  = log w ++ [query_url fn (interval_name interval)] /\
  log (snd (fetchHistorical (num := num) commodity interval limit w))
  = log w ++ [query_url fn (interval_name interval)] /\
  log (snd (fetchAnalysis (num := num) commodity w))
  = log w ++ [query_url fn "daily"] /\
  log (snd (fetchCommoditiesIndex (num := num) w))
  = log w ++ [query_url "ALL_COMMODITIES" "monthly"].
Proof.
  intros [Hfetch _] Hfn.
  rewrite fetchCommodity_world, fetchHistorical_world, fetchAnalysis_world,
    fetchCommoditiesIndex_world, Hfn.
  repeat split; apply Hfetch.
Qed.

Lemma fetchAll_loop_log (log : W -> list string) (interval : Interval)
    (commodities : list string) (results : gmap string (PriceOrError num)) (w : W) :
  logs_requests log ->
  log (snd (fetchAll_loop interval commodities results w))
  = log w ++ concat (map (fun c => symbol_requests c (interval_name interval)) commodities).
Proof.
  intros Hlog. revert results w.
  induction commodities as [|c rest IH]; intros results w.
  - cbn. now rewrite app_nil_r.
  - cbn [fetchAll_loop map concat]. unfold bind at 1. rewrite fetchAll_step_run.
    rewrite IH, (proj2 Hlog), fetchCommodity_world. unfold symbol_requests at 2.
    destruct (prop_get COMMODITIES (toLowerCase c)) as [fn|].
    + now rewrite (proj1 Hlog), <- app_assoc.
    + reflexivity.
Qed.

(** X2. The bulk operation makes exactly ten requests, one per commodity
    in the order of the catalog and each for the given interval, however
    they settle; it never asks for [ALL_COMMODITIES]. *)
Theorem bulk_requests_in_order (log : W -> list string) (interval : Interval) (w : W) :
  logs_requests log ->
  log (snd (fetchAllCommodities (num := num) interval w))
  = log w ++ map (fun fn => query_url fn (interval_name interval))
               ["WTI"; "BRENT"; "NATURAL_GAS"; "COPPER"; "ALUMINUM";
                "WHEAT"; "CORN"; "COFFEE"; "COTTON"; "SUGAR"].
Proof.
  intros Hlog. unfold fetchAllCommodities.
  rewrite (fetchAll_loop_log log interval bulk_symbols ∅ w Hlog).
  reflexivity.
Qed.

Lemma fetchAll_loop_pauses (slept : W -> Z) (interval : Interval)
    (commodities : list string) (results : gmap string (PriceOrError num)) (w : W) :
  counts_pauses slept ->
  slept (snd (fetchAll_loop interval commodities results w))
  = slept w + 200 * Z.of_nat (length commodities).
Proof.
  intros Hslept. revert results w.
  induction commodities as [|c rest IH]; intros results w.
  - cbn. lia.
  - cbn [fetchAll_loop length]. unfold bind at 1. rewrite fetchAll_step_run.
    rewrite IH, (proj2 Hslept), fetchCommodity_world.
    destruct (prop_get COMMODITIES (toLowerCase c)) as [fn|].
    + rewrite (proj1 Hslept). lia.
    + lia.
Qed.

(** X3. The bulk operation pauses 200 ms after every symbol, the last one
    included: 2000 ms in all, whether the fetches succeed or fail.  The
    single-symbol fetchers never pause. *)
Theorem bulk_pauses (slept : W -> Z) (commodity : string) (interval : Interval)
    (limit : Z) (w : W) :
  counts_pauses slept ->
  slept (snd (fetchAllCommodities (num := num) interval w)) = slept w + 2000 /\
  slept (snd (fetchCommodity (num := num) commodity interval w)) = slept w /\
  slept (snd (fetchHistorical (num := num) commodity interval limit w)) = slept w /\
  slept (snd (fetchAnalysis (num := num) commodity w)) = slept w /\
  slept (snd (fetchCommoditiesIndex (num := num) w)) = slept w.
Proof.
  intros Hslept. split.
  - unfold fetchAllCommodities.
    now rewrite (fetchAll_loop_pauses slept interval bulk_symbols ∅ w Hslept).
  - rewrite fetchCommodity_world, fetchHistorical_world, fetchAnalysis_world,
      fetchCommoditiesIndex_world.
    destruct (prop_get COMMODITIES (toLowerCase commodity)) as [fn|];
      repeat split; try reflexivity; apply (proj1 Hslept).
Qed.

(** X4. The index operation is the single-symbol operation on [all] with
    the monthly interval, less the [interval] field: the same request, the
    same world afterwards, the same rejection, and [null] together. *)
Theorem index_is_all_monthly (w : W) :
  fetchCommoditiesIndex (num := num) w
  = match fetchCommodity (num := num) "all" monthly w with
    | (Ok p, w') => (Ok (option_map without_interval p), w')
    | (Throw message, w') => (Throw message, w')
    end.
Proof.
  unfold fetchCommoditiesIndex, fetchCommodity. cbn [toLowerCase].
  change (prop_get COMMODITIES _) with (Some "ALL_COMMODITIES").
  cbn [String.eqb Ascii.eqb]. unfold bind, Response_json, ret, throw. cbn [interval_name].
  destruct (fetch (query_url "ALL_COMMODITIES" "monthly") w) as [[res|message] w1];
    [|reflexivity].
  destruct (body res) as [message|payload|]; [reflexivity| |reflexivity].
  destruct (CommodityData.data payload) as [[|latest rest]|]; reflexivity.
Qed.


End FetcherRequests.

(** ** The history and the labels of the analysis *)

Section Derivations.
Context {num : Type} `{JsNumber num} {W : Type} `{World W}.

Lemma length_slice0 {A : Type} (arr : list A) (last : Z) :
  Z.of_nat (length (slice0 arr last))
  = if last <? 0 then Z.max (Z.of_nat (length arr) + last) 0
    else Z.min last (Z.of_nat (length arr)).
Proof.
  unfold slice0. rewrite length_firstn.
  destruct (Z.ltb_spec last 0); lia.
Qed.

Lemma slice0_prefix {A : Type} (arr : list A) (last : Z) :
  slice0 arr last = firstn (length (slice0 arr last)) arr.
Proof.
  unfold slice0. rewrite length_firstn.
  set (k := Z.to_nat _).
  destruct (Nat.le_gt_cases k (length arr)) as [Hle|Hgt].
  - now rewrite Nat.min_l.
  - rewrite Nat.min_r by lia. now rewrite !firstn_all2 by lia.
Qed.

(** X6. The history of a served series is its first points, newest first,
    each converted on its own: [min(limit, n)] of them for a limit that is
    not negative, all but the oldest [-limit] for a negative one.  A limit
    of 0 gives an empty history, which is not [null]; a positive one a
    history that starts with the latest point, the one [fetchCommodity]
    reports. *)
Theorem historical_truncation (commodity fn : string) (interval : Interval) (limit : Z)
    (payload : CommodityData.t) (latest : RawSeriesPoint.t)
    (rest : list RawSeriesPoint.t) (w w' : W) :
  prop_get COMMODITIES (toLowerCase commodity) = Some fn ->
  request (query_url fn (interval_name interval)) w = (Ok payload, w') ->
  CommodityData.data payload = Some (latest :: rest) ->
  let series := latest :: rest in
  let n := Z.of_nat (length series) in
  exists h : list (HistoricalPoint.t num),
    fetchHistorical commodity interval limit w = (Ok (Some h), w') /\
    h = map historical_point (firstn (length h) series) /\
    (0 <= limit -> Z.of_nat (length h) = Z.min limit n) /\
    (limit < 0 -> Z.of_nat (length h) = Z.max (n + limit) 0) /\
    (limit = 0 -> h = []) /\
    (0 < limit ->
       exists older : list (HistoricalPoint.t num),
         h = HistoricalPoint.mk (RawSeriesPoint.date latest)
               (CommodityPrice.price (latest_price (num := num) payload latest))
             :: older).
Proof.
  intros Hfn Hreq Hdata series n.
  exists (history series limit). split.
  - exact (fetchHistorical_served _ _ _ _ _ _ _ _ _ Hfn Hreq Hdata).
  - assert (Hlen : Z.of_nat (length (history (num := num) series limit))
                   = if limit <? 0 then Z.max (n + limit) 0 else Z.min limit n).
    { unfold history. rewrite length_map. apply length_slice0. }
    split; [|split; [|split; [|split]]].
    + unfold history at 1. rewrite (slice0_prefix series limit) at 1.
      unfold history. now rewrite length_map.
    + intros Hpos. rewrite Hlen. destruct (Z.ltb_spec limit 0); [lia|reflexivity].
    + intros Hneg. rewrite Hlen. destruct (Z.ltb_spec limit 0); [reflexivity|lia].
    + intros ->. cbn in Hlen. destruct (history series 0); [reflexivity|].
      cbn in Hlen. lia.
    + intros Hpos. unfold history, slice0.
      destruct (Z.ltb_spec limit 0); [lia|].
      fold n. destruct (Z.to_nat (Z.min limit n)) as [|k] eqn:Hk.
      * unfold n, series in Hk. cbn [length] in Hk. lia.
      * unfold series. cbn. eexists. reflexivity.
Qed.

Lemma analysed_length (series : list RawSeriesPoint.t) :
  length (map (fun d => parseFloat (num := num) (RawSeriesPoint.value d)) (slice0 series 90))
  = Nat.min 90 (length series).
Proof.
  rewrite analysed_prices, length_firstn. unfold prices_of. now rewrite length_map.
Qed.

Lemma getSignal_unknown (current : num) (ma : option num) :
  getSignal current ma = unknown_signal <-> ma = None.
Proof.
  unfold getSignal. destruct ma as [m|]; [|tauto].
  destruct (num_lt _ _); [|destruct (num_lt _ _)]; split; discriminate.
Qed.

Lemma getVolatilityLevel_unknown (vol : option num) :
  getVolatilityLevel vol = unknown_level <-> vol = None.
Proof.
  unfold getVolatilityLevel. destruct vol as [v|]; [|tauto].
  destruct (num_lt _ _); [|destruct (num_lt _ _)]; split; discriminate.
Qed.

Lemma getTrend_unknown (change7 change30 : option num) :
  getTrend change7 change30 = unknown_trend <-> change7 = None \/ change30 = None.
Proof.
  unfold getTrend. destruct change7 as [c7|], change30 as [c30|]; try tauto.
  destruct (_ && _)%bool; [|destruct (_ && _)%bool];
    split; try discriminate; intros [Hc|Hc]; discriminate Hc.
Qed.

(** X7. A label of the analysis is [unknown] exactly when the series is
    too short for the figure it is read from: the level of the volatility
    and the signal against the 7-day average below 7 points, the signal
    against the 30-day average below 30, and the trend, which needs the
    change against [p[30]], up to 30 points.  From 31 points on no label is
    [unknown], whatever the prices are. *)
Theorem labels_unknown_when_short (commodity : string) (info : option CommodityInfo)
    (payload : CommodityData.t) (latest : RawSeriesPoint.t)
    (rest : list RawSeriesPoint.t) :
  let a := analyse (num := num) commodity info payload latest (latest :: rest) in
  let n := length (latest :: rest) in
  (CommodityAnalysis.level (CommodityAnalysis.volatility a) = unknown_level <-> (n < 7)%nat) /\
  (CommodityAnalysis.vs7dma (CommodityAnalysis.signal a) = unknown_signal <-> (n < 7)%nat) /\
  (CommodityAnalysis.vs30dma (CommodityAnalysis.signal a) = unknown_signal <-> (n < 30)%nat) /\
  (CommodityAnalysis.trend (CommodityAnalysis.signal a) = unknown_trend <-> (n <= 30)%nat).
Proof.
  intros a n. unfold a, analyse.
  cbn [CommodityAnalysis.level CommodityAnalysis.volatility CommodityAnalysis.signal
       CommodityAnalysis.vs7dma CommodityAnalysis.vs30dma CommodityAnalysis.trend].
  rewrite getVolatilityLevel_unknown, !getSignal_unknown, getTrend_unknown.
  unfold calculateVolatility, calculateMA, change_against.
  rewrite analysed_length. fold n.
  repeat split; intros Hn;
    repeat match goal with
           | |- context [(?x <? ?y)%nat] => destruct (Nat.ltb_spec x y)
           | Hn : context [(?x <? ?y)%nat] |- _ => destruct (Nat.ltb_spec x y)
           end; try lia; try discriminate; try tauto;
    try (destruct Hn; discriminate).
Qed.

(** X18. The analysis reads the 90 newest points and nothing older: cut
    down to them, a series gets the same analysis, figure by figure and
    label by label. *)
Theorem analysis_reads_ninety_points (commodity : string) (info : option CommodityInfo)
    (payload : CommodityData.t) (latest : RawSeriesPoint.t)
    (series : list RawSeriesPoint.t) :
  analyse (num := num) commodity info payload latest series
  = analyse (num := num) commodity info payload latest (firstn 90 series).
Proof.
  unfold analyse. change 90%Z with (Z.of_nat 90).
  rewrite !slice0_firstn, firstn_firstn. reflexivity.
Qed.

End Derivations.

(** ** The labels on the doubles *)

Section Binary64Labels.
Local Open Scope js_scope.

Ltac on_doubles :=
  cbn [num_lt num_sub num_div num_mul num_of_Z Binary64.number] in *.

Lemma lt_NaN (x y : float) :
  is_NaN x \/ is_NaN y -> (x <? y) = false.
Proof.
  unfold is_NaN. on_doubles. rewrite FloatAxioms.ltb_spec. unfold SFltb.
  intros [Hx|Hy].
  - now rewrite Hx.
  - rewrite Hy. now destruct (Prim2SF x).
Qed.

Lemma sub_NaN (x y : float) : is_NaN x \/ is_NaN y -> is_NaN (x - y).
Proof.
  unfold is_NaN. on_doubles. rewrite sub_spec. unfold SF64sub, SFsub.
  intros [Hx|Hy].
  - now rewrite Hx.
  - rewrite Hy. now destruct (Prim2SF x).
Qed.

Lemma div_NaN (x y : float) : is_NaN x \/ is_NaN y -> is_NaN (x / y).
Proof.
  unfold is_NaN. on_doubles. rewrite div_spec. unfold SF64div, SFdiv.
  intros [Hx|Hy].
  - now rewrite Hx.
  - rewrite Hy. now destruct (Prim2SF x).
Qed.

Lemma mul_NaN (x y : float) : is_NaN x -> is_NaN (x * y).
Proof.
  unfold is_NaN. on_doubles. rewrite mul_spec. unfold SF64mul, SFmul. now intros ->.
Qed.

Lemma calculateChange_NaN (current previous : float) :
  is_NaN current \/ is_NaN previous -> is_NaN (calculateChange current previous).
Proof.
  intros Hnan. unfold calculateChange.
  apply mul_NaN, div_NaN.
  destruct Hnan as [Hc|Hp]; [left; apply sub_NaN; now left|now right].
Qed.

(** X8. A figure that is not a number still gets a label.  Every
    comparison with a NaN is false, so the tests of the three labelling
    functions all fail and each falls through to its last [return]: a NaN
    volatility is [high], a NaN price or moving average is [at], and a NaN
    change makes the trend [neutral]. *)
Theorem not_a_number_is_labelled (x : float) :
  is_NaN x ->
  getVolatilityLevel (Some x) = high /\
  (forall y : float,
     getSignal x (Some y) = at_ma /\ getSignal y (Some x) = at_ma /\
     getTrend (Some x) (Some y) = neutral /\ getTrend (Some y) (Some x) = neutral).
Proof.
  intros Hx. split.
  - unfold getVolatilityLevel.
    now rewrite (lt_NaN x #1), (lt_NaN x #3) by now left.
  - intros y.
    pose proof (calculateChange_NaN x y (or_introl Hx)) as Hxy.
    pose proof (calculateChange_NaN y x (or_intror Hx)) as Hyx.
    unfold calculateChange in Hxy, Hyx. unfold getSignal, getTrend.
    rewrite (lt_NaN #1 (((x - y) / y) * #100)), (lt_NaN (((x - y) / y) * #100) #(-1)),
      (lt_NaN #1 (((y - x) / x) * #100)), (lt_NaN (((y - x) / x) * #100) #(-1)),
      (lt_NaN #2 x), (lt_NaN x #(-2)), (lt_NaN #0 x), (lt_NaN x #0)
      by ((now left) || (now right)).
    rewrite !Bool.andb_false_r. repeat split; reflexivity.
Qed.

Lemma one_as_spec_float :
  Prim2SF (Binary64.of_Z 1) = S754_finite false 4503599627370496 (-52).
Proof. vm_compute. reflexivity. Qed.

Lemma minus_one_as_spec_float :
  Prim2SF (Binary64.of_Z (-1)) = S754_finite true 4503599627370496 (-52).
Proof. vm_compute. reflexivity. Qed.

(** The change of a double against itself is a zero or a NaN. *)
Lemma calculateChange_self (x : float) :
  match Prim2SF (calculateChange x x) with
  | S754_zero _ | S754_nan => True
  | _ => False
  end.
Proof.
  unfold calculateChange. on_doubles.
  rewrite mul_spec, div_spec, sub_spec, hundred_as_spec_float.
  unfold SF64mul, SF64div, SF64sub.
  destruct (Prim2SF x) as [s|s| |s m e].
  - destruct s; exact I.
  - destruct s; exact I.
  - exact I.
  - cbv beta iota delta [SFsub]. cbv zeta. rewrite Z.sub_diag.
    cbv beta iota delta [binary_normalize SFdiv SFmul]. exact I.
Qed.

Lemma zero_or_NaN_between (d : float) (lower upper : Z) :
  match Prim2SF d with
  | S754_zero _ | S754_nan => True
  | _ => False
  end ->
  (exists m e, Prim2SF (Binary64.of_Z upper) = S754_finite false m e) ->
  (exists m e, Prim2SF (Binary64.of_Z lower) = S754_finite true m e) ->
  (#upper <? d) = false /\ (d <? #lower) = false.
Proof.
  intros Hd (mu & eu & Hu) (ml & el & Hl). on_doubles.
  rewrite !FloatAxioms.ltb_spec, Hu, Hl. unfold SFltb.
  destruct (Prim2SF d) as [s|s| |s m e]; try contradiction; split; reflexivity.
Qed.

(** X9. A price that is its own moving average is [at] it, and a price
    that has not changed makes no trend: against itself a double shows a
    change of zero, or NaN when it is zero, infinite or NaN itself, and
    neither is above 1 or 2 or below -1 or -2. *)
Theorem unchanged_price_is_at_average (x : float) :
  getSignal x (Some x) = at_ma /\
  (forall change30 : float,
     getTrend (Some (calculateChange x x)) (Some change30) = neutral).
Proof.
  pose proof (calculateChange_self x) as Hself.
  destruct (zero_or_NaN_between _ (-1) 1 Hself) as [Habove Hbelow];
    [rewrite one_as_spec_float; eauto|rewrite minus_one_as_spec_float; eauto|].
  destruct (zero_or_NaN_between _ (-2) 2 Hself) as [Hup Hdown];
    [rewrite two_as_spec_float; eauto|rewrite minus_two_as_spec_float; eauto|].
  unfold getSignal, getTrend. unfold calculateChange in *.
  rewrite Habove, Hbelow, Hup, Hdown. split; [reflexivity|]. intros change30. reflexivity.
Qed.

End Binary64Labels.

(** ** The cache and the fetchers of alpha-vantage.ts *)

Section CacheFrame.
Context {W : Type} `{World W} {T : Type}.
Import Cache.

(** [get] with a fetcher that does not touch the cache. *)
Lemma get_external (key : string) (f : M W T) (ttl : Z)
    (store : gmap string (CacheEntry T)) (w : W) :
  get key (external f) ttl (store, w)
  = if is_fresh_dec store key (Date_now w)
    then (match store !! key with
          | Some e => Ok (data e)
          | None => Throw EmptyString
          end, (store, w))
    else match f w with
         | (Ok d, w') => (Ok d, (<[key := mk_entry d (Date_now w') ttl]> store, w'))
         | (Throw message, w') => (Throw message, (store, w'))
         end.
Proof.
  destruct (is_fresh_dec store key (Date_now w)) as [(e & Hkey & Hlt)|Hstale].
  - rewrite Hkey. now apply get_hit.
  - rewrite get_miss, refresh_run by exact Hstale. unfold external. cbn.
    destruct (f w) as [[d|message] w']; reflexivity.
Qed.

(** X10. A call of [get] whose fetcher does not touch the cache writes at
    most the entry of its own key: the entries of all other keys are the
    ones there were.  No call removes an entry, so a key once stored stays
    in the store, expired or not, until it is overwritten. *)
Theorem get_keeps_other_entries (key : string) (f : M W T) (ttl : Z)
    (store : gmap string (CacheEntry T)) (w : W) :
  let store' := fst (snd (get key (external f) ttl (store, w))) in
  (forall other : string, other <> key -> store' !! other = store !! other) /\
  (forall k : string, is_Some (store !! k) -> is_Some (store' !! k)).
Proof.
  cbv zeta. rewrite get_external. cbn [snd fst].
  destruct (is_fresh_dec store key (Date_now w)) as [Hfresh|Hstale].
  - cbn. split; auto.
  - destruct (f w) as [[d|message] w']; cbn.
    + split.
      * intros other Hne. now apply lookup_insert_ne.
      * intros k Hk. destruct (decide (key = k)) as [->|Hne].
        -- rewrite lookup_insert_eq. eauto.
        -- now rewrite lookup_insert_ne.
    + split; auto.
Qed.

End CacheFrame.

(** ** The key of the entrypoints *)

Section Keys.

Lemma lower_underscore (c : ascii) :
  lower_ascii (underscore (lower_ascii c)) = underscore (lower_ascii c) /\
  underscore (underscore (lower_ascii c)) = underscore (lower_ascii c) /\
  underscore (lower_ascii c) <> " "%char /\
  underscore (lower_ascii c) <> "-"%char /\
  lower_ascii (lower_ascii c) = lower_ascii c.
Proof.
  destruct c as [[] [] [] [] [] [] [] []]; vm_compute; repeat split; discriminate.
Qed.

Lemma toLowerCase_normalize (commodity : string) :
  toLowerCase (normalize commodity) = normalize commodity.
Proof.
  unfold normalize. induction commodity as [|c rest IH]; [reflexivity|].
  cbn [toLowerCase replace_separators]. rewrite IH.
  now rewrite (proj1 (lower_underscore c)).
Qed.

Lemma replace_separators_normalize (commodity : string) :
  replace_separators (normalize commodity) = normalize commodity.
Proof.
  unfold normalize. induction commodity as [|c rest IH]; [reflexivity|].
  cbn [toLowerCase replace_separators]. rewrite IH.
  now rewrite (proj1 (proj2 (lower_underscore c))).
Qed.

(** X11. The key an entrypoint derives from its input is canonical:
    deriving it again changes nothing, it holds no space and no hyphen, and
    lower-casing leaves it as it is.  So the fetcher, which lower-cases
    the key it is given, looks up the very key that passed the guard of the
    entrypoint.  Inputs that differ in case or in the separator only get
    the same key. *)
Theorem normalize_is_canonical (commodity : string) :
  normalize (normalize commodity) = normalize commodity /\
  toLowerCase (normalize commodity) = normalize commodity /\
  (forall c : ascii,
     In c (list_ascii_of_string (normalize commodity)) ->
     c <> " "%char /\ c <> "-"%char /\ lower_ascii c = c) /\
  normalize (toLowerCase commodity) = normalize commodity /\
  normalize (replace_separators commodity) = normalize commodity.
Proof.
  split; [|split; [|split; [|split]]].
  - unfold normalize at 1. now rewrite toLowerCase_normalize, replace_separators_normalize.
  - apply toLowerCase_normalize.
  - unfold normalize. induction commodity as [|c0 rest IH]; [intros c []|].
    cbn [toLowerCase replace_separators list_ascii_of_string In].
    intros c [<-|Hin]; [|now apply IH].
    pose proof (lower_underscore c0) as (Hlow & _ & Hspace & Hhyphen & _).
    now repeat split.
  - unfold normalize. induction commodity as [|c rest IH]; [reflexivity|].
    cbn [toLowerCase replace_separators]. rewrite IH.
    now rewrite (proj2 (proj2 (proj2 (proj2 (lower_underscore c))))).
  - unfold normalize. induction commodity as [|c rest IH]; [reflexivity|].
    cbn [toLowerCase replace_separators]. rewrite IH. f_equal.
    destruct c as [[] [] [] [] [] [] [] []]; vm_compute; reflexivity.
Qed.

Lemma split_at_colon (a a' s s' : string) :
  no_colon a = true -> no_colon a' = true ->
  (a ++ ":" ++ s = a' ++ ":" ++ s')%string -> a = a' /\ s = s'.
Proof.
  revert a'. induction a as [|c a IH]; intros [|c' a'] Ha Ha' Heq;
    cbn [String.append no_colon] in *.
  - injection Heq as Heq. now subst.
  - injection Heq as Hc _. subst c'. discriminate Ha'.
  - injection Heq as Hc _. subst c. discriminate Ha.
  - injection Heq as Hc Heq. subst c'.
    apply andb_prop in Ha as [_ Ha]. apply andb_prop in Ha' as [_ Ha'].
    destruct (IH a' Ha Ha' Heq) as [-> ->]. now split.
Qed.

Lemma interval_name_inj (i i' : Interval) :
  interval_name i = interval_name i' -> i = i'.
Proof. destruct i, i'; cbn; intros Heq; try reflexivity; discriminate Heq. Qed.

Lemma interval_name_no_colon (i : Interval) : no_colon (interval_name i) = true.
Proof. now destruct i. Qed.

Lemma kind_of_templates (k : string) (i : Interval) (limit : Z) :
  kind_of (price_key k i) = price_kind /\
  kind_of (all_key i) = bulk_kind /\
  kind_of (historical_key k i limit) = history_kind /\
  kind_of index_key = aggregate_kind /\
  kind_of (analysis_key k) = analysis_kind.
Proof. repeat split; reflexivity. Qed.

(** X12. The keys of the cache tell the requests apart.  Every key that
    passes the guard of an entrypoint is free of colons, and for such keys
    each template determines its parameters: two calls of one entrypoint
    share an entry only when they agree on the commodity, the interval and
    the limit.  The templates of different entrypoints never meet, for any
    key at all. *)
Theorem cache_keys_tell_requests_apart (k k' : string) (i i' : Interval) (limit limit' : Z) :
  no_colon k = true -> no_colon k' = true ->
  (price_key k i = price_key k' i' -> k = k' /\ i = i') /\
  (historical_key k i limit = historical_key k' i' limit' ->
     k = k' /\ i = i' /\ limit = limit') /\
  (analysis_key k = analysis_key k' -> k = k') /\
  (all_key i = all_key i' -> i = i') /\
  (forall (key fn : string), prop_get COMMODITIES key = Some fn -> no_colon key = true) /\
  (forall key : string,
     kind_of (price_key key i) = price_kind /\
     kind_of (all_key i) = bulk_kind /\
     kind_of (historical_key key i limit) = history_kind /\
     kind_of index_key = aggregate_kind /\
     kind_of (analysis_key key) = analysis_kind).
Proof.
  intros Hk Hk'. split; [|split; [|split; [|split; [|split]]]].
  - unfold price_key. intros Heq. injection Heq as Heq.
    apply split_at_colon in Heq as [-> Hi]; auto.
    split; [reflexivity|now apply interval_name_inj].
  - unfold historical_key. intros Heq. injection Heq as Heq.
    apply split_at_colon in Heq as [-> Heq]; auto.
    apply split_at_colon in Heq as [Hi Hl]; auto using interval_name_no_colon.
    split; [reflexivity|]. split; [now apply interval_name_inj|].
    now apply (inj pretty).
  - unfold analysis_key. intros Heq. now injection Heq.
  - unfold all_key. intros Heq. injection Heq as Heq. now apply interval_name_inj.
  - intros key fn. cbn [prop_get COMMODITIES].
    repeat match goal with
           | |- context [String.eqb ?a key] =>
               destruct (String.eqb_spec a key) as [<-|_]; [reflexivity|]
           end.
    discriminate.
  - intros key. apply kind_of_templates.
Qed.

End Keys.

(** ** The entrypoints *)

Section EntrypointFacts.
Context {num : Type} `{JsNumber num} {W : Type} `{World W}.
Variable toISOString : Z -> string.
Import Cache.

(** After the call of [cache.get] an entrypoint only reads. *)
Ltac run_tail :=
  cbv beta iota zeta delta
    [bind timestamp_now age_or_zero getAge store_get now ret throw];
  cbn [fst snd truthy array_length];
  repeat match goal with
         | |- context [match ?s !! ?k with _ => _ end] => destruct (s !! k)
         | |- context [if truthy ?d then _ else _] => destruct (truthy d)
         | |- context [match keys_count ?d with _ => _ end] => destruct (keys_count d)
         end;
  try reflexivity.

Lemma price_entrypoint_state (commodity fn : string) (interval : Interval)
    (st : State W (CachedValue num)) :
  prop_get COMMODITIES (normalize commodity) = Some fn ->
  snd (price_entrypoint toISOString commodity interval st)
  = snd (get (price_key (normalize commodity) interval)
           (cached price_value (fetchCommodity (normalize commodity) interval)) 60000 st).
Proof.
  intros Hfn. unfold price_entrypoint.
  rewrite Hfn, (catalog_function_nonempty _ _ Hfn). unfold bind at 1.
  destruct (get _ _ _ st) as [[data|message] st']; [|reflexivity]. run_tail.
Qed.

Lemma historical_entrypoint_state (commodity fn : string) (interval : Interval)
    (limit : Z) (st : State W (CachedValue num)) :
  prop_get COMMODITIES (normalize commodity) = Some fn ->
  snd (historical_entrypoint toISOString commodity interval limit st)
  = snd (get (historical_key (normalize commodity) interval limit)
           (cached history_value (fetchHistorical (normalize commodity) interval limit))
           300000 st).
Proof.
  intros Hfn. unfold historical_entrypoint.
  rewrite Hfn, (catalog_function_nonempty _ _ Hfn). unfold bind at 1.
  destruct (get _ _ _ st) as [[data|message] st']; [|reflexivity]. run_tail.
Qed.

Lemma analysis_entrypoint_state (commodity fn : string) (st : State W (CachedValue num)) :
  prop_get COMMODITIES (normalize commodity) = Some fn ->
  snd (analysis_entrypoint toISOString commodity st)
  = snd (get (analysis_key (normalize commodity))
           (cached analysis_value (fetchAnalysis (normalize commodity))) 120000 st).
Proof.
  intros Hfn. unfold analysis_entrypoint.
  rewrite Hfn, (catalog_function_nonempty _ _ Hfn). unfold bind at 1.
  destruct (get _ _ _ st) as [[data|message] st']; [|reflexivity]. run_tail.
Qed.

Lemma index_entrypoint_state (st : State W (CachedValue num)) :
  snd (index_entrypoint toISOString st)
  = snd (get index_key (cached aggregate_value fetchCommoditiesIndex) 300000 st).
Proof.
  unfold index_entrypoint. unfold bind at 1.
  destruct (get _ _ _ st) as [[data|message] st']; [|reflexivity]. run_tail.
Qed.

Lemma all_entrypoint_state (interval : Interval) (st : State W (CachedValue num)) :
  snd (all_entrypoint toISOString interval st)
  = snd (get (all_key interval) (cached_bulk (fetchAllCommodities interval)) 120000 st).
Proof.
  unfold all_entrypoint. unfold bind at 1.
  destruct (get _ _ _ st) as [[data|message] st']; [|reflexivity]. run_tail.
Qed.

(** The world after a call of [get] with a fetcher that does not touch
    the cache. *)
Lemma get_external_world {T : Type} (key : string) (f : M W T) (ttl : Z)
    (store : gmap string (CacheEntry T)) (w : W) :
  snd (snd (get key (external f) ttl (store, w)))
  = if is_fresh_dec store key (Date_now w) then w else snd (f w).
Proof.
  rewrite get_external.
  destruct (is_fresh_dec store key (Date_now w)); [reflexivity|].
  destruct (f w) as [[d|message] w']; reflexivity.
Qed.

Lemma cached_world {A : Type} (inj : A -> CachedValue num) (f : M W (option A)) (w : W) :
  snd (bind f (fun r => ret (match r with Some a => inj a | None => null_value end)) w)
  = snd (f w).
Proof. unfold bind, ret. destruct (f w) as [[r|message] w']; reflexivity. Qed.

Lemma cached_bulk_world (f : M W (gmap string (PriceOrError num))) (w : W) :
  snd (bind f (fun r => ret (bulk_value r)) w) = snd (f w).
Proof. unfold bind, ret. destruct (f w) as [[r|message] w']; reflexivity. Qed.

(** X13. An entrypoint answers from the cache without a request while
    the entry of its key is fresh, and otherwise makes the requests of its
    fetcher and no other: one for the function of the commodity, ten for
    the bulk operation.  The key that passed the guard of the entrypoint
    passes the guard of the fetcher. *)
Theorem entrypoint_requests (log : W -> list string) (commodity fn : string)
    (interval : Interval) (limit : Z)
    (store : gmap string (CacheEntry (CachedValue num))) (w : W) :
  logs_requests log ->
  prop_get COMMODITIES (normalize commodity) = Some fn ->
  let asks (key : string) (urls : list string) (st' : State W (CachedValue num)) :=
    log (snd st') = if is_fresh_dec store key (Date_now w) then log w else log w ++ urls in
  asks (price_key (normalize commodity) interval)
    [query_url fn (interval_name interval)]
    (snd (price_entrypoint toISOString commodity interval (store, w))) /\
  asks (historical_key (normalize commodity) interval limit)
    [query_url fn (interval_name interval)]
    (snd (historical_entrypoint toISOString commodity interval limit (store, w))) /\
  asks (analysis_key (normalize commodity))
    [query_url fn "daily"]
    (snd (analysis_entrypoint toISOString commodity (store, w))) /\
  asks index_key
    [query_url "ALL_COMMODITIES" "monthly"]
    (snd (index_entrypoint toISOString (store, w))) /\
  asks (all_key interval)
    (map (fun fn => query_url fn (interval_name interval))
       ["WTI"; "BRENT"; "NATURAL_GAS"; "COPPER"; "ALUMINUM";
        "WHEAT"; "CORN"; "COFFEE"; "COTTON"; "SUGAR"])
    (snd (all_entrypoint toISOString interval (store, w))).
Proof.
  intros Hlog Hfn asks. unfold asks.
  rewrite (price_entrypoint_state _ _ _ _ Hfn), (historical_entrypoint_state _ _ _ _ _ Hfn),
    (analysis_entrypoint_state _ _ _ Hfn), index_entrypoint_state, all_entrypoint_state.
  unfold cached, cached_bulk. rewrite !get_external_world.
  rewrite !cached_world, cached_bulk_world.
  rewrite fetchCommodity_world, fetchHistorical_world, fetchAnalysis_world,
    fetchCommoditiesIndex_world.
  rewrite toLowerCase_normalize, Hfn.
  repeat split;
    match goal with
    | |- context [is_fresh_dec store ?k ?t] => destruct (is_fresh_dec store k t)
    end; try reflexivity; try apply (proj1 Hlog).
  unfold fetchAllCommodities.
  now rewrite (fetchAll_loop_log log interval bulk_symbols ∅ w Hlog).
Qed.

(** An entrypoint on a fresh entry that holds [null]. *)
Lemma get_fresh_null (key : string) (fetcher : M (State W (CachedValue num)) (CachedValue num))
    (ttl stored t : Z) (store : gmap string (CacheEntry (CachedValue num))) (later : W) :
  Date_now later - t < stored ->
  get key fetcher ttl (<[key := mk_entry null_value t stored]> store, later)
  = (Ok null_value, (<[key := mk_entry null_value t stored]> store, later)).
Proof.
  intros Hwithin.
  apply (get_hit key fetcher ttl _ later (mk_entry null_value t stored)).
  - apply lookup_insert_eq.
  - exact Hwithin.
Qed.

Lemma get_stale_null {A : Type} (key : string) (inj : A -> CachedValue num)
    (f : M W (option A)) (ttl : Z)
    (store : gmap string (CacheEntry (CachedValue num))) (w w1 : W) :
  ~ is_fresh store key (Date_now w) ->
  f w = (Ok None, w1) ->
  get key (cached inj f) ttl (store, w)
  = (Ok null_value, (<[key := mk_entry null_value (Date_now w1) ttl]> store, w1)).
Proof.
  intros Hstale Hrun. unfold cached. rewrite get_external.
  destruct (is_fresh_dec store key (Date_now w)) as [Hfresh|_]; [contradiction|].
  unfold bind, ret. now rewrite Hrun.
Qed.

(** X14. [null] is cached like data.  When the fetcher of an entrypoint
    returns [null] on a miss, the entrypoint answers [No data available]
    and stores the [null] under its key with its ttl: one minute for a
    price, five for a history, two for an analysis.  Until the ttl has
    elapsed every call for that key answers [No data available] again,
    without a request and without a change of the store. *)
Theorem no_data_is_cached (commodity fn : string) (interval : Interval) (limit : Z)
    (store : gmap string (CacheEntry (CachedValue num))) (w w1 : W) :
  prop_get COMMODITIES (normalize commodity) = Some fn ->
  let key := normalize commodity in
  let holding (k : string) (ttl : Z) := <[k := mk_entry null_value (Date_now w1) ttl]> store in
  (~ is_fresh store (price_key key interval) (Date_now w) ->
   fetchCommodity (num := num) key interval w = (Ok None, w1) ->
   price_entrypoint toISOString commodity interval (store, w)
   = (Ok no_data, (holding (price_key key interval) 60000, w1)) /\
   forall later : W,
     Date_now later - Date_now w1 < 60000 ->
     price_entrypoint toISOString commodity interval
       (holding (price_key key interval) 60000, later)
     = (Ok no_data, (holding (price_key key interval) 60000, later))) /\
  (~ is_fresh store (historical_key key interval limit) (Date_now w) ->
   fetchHistorical (num := num) key interval limit w = (Ok None, w1) ->
   historical_entrypoint toISOString commodity interval limit (store, w)
   = (Ok no_data, (holding (historical_key key interval limit) 300000, w1)) /\
   forall later : W,
     Date_now later - Date_now w1 < 300000 ->
     historical_entrypoint toISOString commodity interval limit
       (holding (historical_key key interval limit) 300000, later)
     = (Ok no_data, (holding (historical_key key interval limit) 300000, later))) /\
  (~ is_fresh store (analysis_key key) (Date_now w) ->
   fetchAnalysis (num := num) key w = (Ok None, w1) ->
   analysis_entrypoint toISOString commodity (store, w)
   = (Ok no_data, (holding (analysis_key key) 120000, w1)) /\
   forall later : W,
     Date_now later - Date_now w1 < 120000 ->
     analysis_entrypoint toISOString commodity (holding (analysis_key key) 120000, later)
     = (Ok no_data, (holding (analysis_key key) 120000, later))).
Proof.
  intros Hfn key holding. unfold holding, key.
  unfold price_entrypoint, historical_entrypoint, analysis_entrypoint.
  rewrite Hfn, (catalog_function_nonempty _ _ Hfn).
  repeat split.
  - unfold bind at 1. now rewrite (get_stale_null _ _ _ _ _ _ w1) by assumption.
  - intros later Hwithin. unfold bind at 1. now rewrite get_fresh_null.
  - unfold bind at 1. now rewrite (get_stale_null _ _ _ _ _ _ w1) by assumption.
  - intros later Hwithin. unfold bind at 1. now rewrite get_fresh_null.
  - unfold bind at 1. now rewrite (get_stale_null _ _ _ _ _ _ w1) by assumption.
  - intros later Hwithin. unfold bind at 1. now rewrite get_fresh_null.
Qed.

(** *** The invariant of the store *)

Lemma well_tagged_insert (store : gmap string (CacheEntry (CachedValue num)))
    (key : string) (v : CachedValue num) (t ttl : Z) :
  well_tagged store -> fits (kind_of key) v ->
  well_tagged (<[key := mk_entry v t ttl]> store).
Proof.
  intros Hstore Hv k e Hk. destruct (decide (key = k)) as [->|Hne].
  - rewrite lookup_insert_eq in Hk. now injection Hk as <-.
  - rewrite lookup_insert_ne in Hk by exact Hne. now apply Hstore.
Qed.

Lemma get_well_tagged (key : string) (f : M W (CachedValue num)) (ttl : Z)
    (store : gmap string (CacheEntry (CachedValue num))) (w : W) :
  (forall (d : CachedValue num) (w' : W), f w = (Ok d, w') -> fits (kind_of key) d) ->
  well_tagged store ->
  well_tagged (fst (snd (get key (external f) ttl (store, w)))) /\
  (forall d : CachedValue num,
     fst (get key (external f) ttl (store, w)) = Ok d -> fits (kind_of key) d).
Proof.
  intros Hf Hstore. rewrite get_external.
  destruct (is_fresh_dec store key (Date_now w)) as [(e & Hkey & _)|_].
  - rewrite Hkey. cbn. split; [exact Hstore|].
    intros d [= <-]. now apply (Hstore key).
  - destruct (f w) as [[d|message] w'] eqn:Hrun; cbn.
    + split.
      * apply well_tagged_insert; [exact Hstore|]. now apply (Hf d w').
      * intros d' [= <-]. now apply (Hf d w').
    + split; [exact Hstore|]. discriminate.
Qed.

(** The bulk operation returns a mapping with one entry per commodity. *)
Lemma fetchAllCommodities_keys (interval : Interval) (w : W) :
  exists results : gmap string (PriceOrError num),
    fetchAllCommodities interval w
    = (Ok results, world_after (num := num) interval bulk_symbols w) /\
    forall c : string, is_Some (results !! c) <-> In c bulk_symbols.
Proof.
  destruct (fetchAll_loop_run interval bulk_symbols bulk_symbols_NoDup ∅ w)
    as (results & Hrun & Hother & Hrec).
  exists results. split; [exact Hrun|].
  intros c. split.
  - intros Hsome. destruct (in_dec string_dec c bulk_symbols) as [Hin|Hout]; [exact Hin|].
    rewrite Hother, lookup_empty in Hsome by exact Hout.
    now destruct Hsome.
  - intros Hin. apply in_split in Hin as (done & rest & Heq).
    rewrite (Hrec _ _ _ Heq). eauto.
Qed.

Lemma ten_entries (r : gmap string (PriceOrError num)) :
  (forall c : string, is_Some (r !! c) <-> In c bulk_symbols) -> size r = 10%nat.
Proof.
  intros Hkeys.
  assert (Hdom : dom r = list_to_set (C := gset string) bulk_symbols).
  { apply set_eq. intros c.
    rewrite elem_of_dom, elem_of_list_to_set, list_elem_of_In. apply Hkeys. }
  rewrite <- size_dom, Hdom, size_list_to_set by apply bulk_symbols_NoDup.
  reflexivity.
Qed.

Lemma cached_fits {A : Type} (inj : A -> CachedValue num) (f : M W (option A))
    (key : string) (w : W) :
  fits (num := num) (kind_of key) null_value ->
  (forall a : A, fits (kind_of key) (inj a)) ->
  forall (d : CachedValue num) (w' : W),
    bind f (fun r => ret (match r with Some a => inj a | None => null_value end)) w
    = (Ok d, w') ->
    fits (kind_of key) d.
Proof.
  intros Hnull Hinj d w'. unfold bind, ret.
  destruct (f w) as [[[a|]|message] w1]; intros [= <- _]; auto.
Qed.

Lemma cached_bulk_fits (interval : Interval) (w : W) (d : CachedValue num) (w' : W) :
  bind (fetchAllCommodities interval) (fun r => ret (bulk_value r)) w = (Ok d, w') ->
  fits (kind_of (all_key interval)) d.
Proof.
  destruct (fetchAllCommodities_keys interval w) as (results & Hrun & Hkeys).
  unfold bind, ret. rewrite Hrun. intros [= <- _].
  now rewrite (proj1 (proj2 (kind_of_templates EmptyString interval 0))).
Qed.

(** X15. The store keeps an invariant through every call of every
    entrypoint: under a key of the template of an entrypoint lies what the
    fetcher of that entrypoint returns, that is, [null] or its kind of
    data, and under a key of the bulk operation a mapping with exactly one
    entry per commodity, never [null].  The empty store of a fresh process
    has it. *)
Theorem entrypoints_keep_store_well_tagged (commodity : string) (interval : Interval)
    (limit : Z) (store : gmap string (CacheEntry (CachedValue num))) (w : W) :
  well_tagged store ->
  well_tagged (fst (snd (price_entrypoint toISOString commodity interval (store, w)))) /\
  well_tagged (fst (snd (all_entrypoint toISOString interval (store, w)))) /\
  well_tagged
    (fst (snd (historical_entrypoint toISOString commodity interval limit (store, w)))) /\
  well_tagged (fst (snd (index_entrypoint toISOString (store, w)))) /\
  well_tagged (fst (snd (analysis_entrypoint toISOString commodity (store, w)))) /\
  well_tagged (num := num) ∅.
Proof.
  intros Hstore.
  pose proof (kind_of_templates (normalize commodity) interval limit)
    as (Hprice & Hbulk & Hhistory & Hindex & Hanalysis).
  assert (Hknown : forall fn : string,
            prop_get COMMODITIES (normalize commodity) = Some fn ->
            well_tagged (fst (snd (price_entrypoint toISOString commodity interval (store, w)))) /\
            well_tagged
              (fst (snd (historical_entrypoint toISOString commodity interval limit (store, w)))) /\
            well_tagged (fst (snd (analysis_entrypoint toISOString commodity (store, w))))).
  { intros fn Hfn.
    rewrite (price_entrypoint_state _ _ _ _ Hfn), (historical_entrypoint_state _ _ _ _ _ Hfn),
      (analysis_entrypoint_state _ _ _ Hfn).
    unfold cached. repeat split; apply get_well_tagged; try exact Hstore;
      apply cached_fits;
      rewrite ?Hprice, ?Hhistory, ?Hanalysis; intros; exact I. }
  assert (Hunknown : prop_get COMMODITIES (normalize commodity) = None ->
            price_entrypoint toISOString commodity interval (store, w)
            = (Ok (unknown_commodity available), (store, w)) /\
            historical_entrypoint toISOString commodity interval limit (store, w)
            = (Ok (unknown_commodity available), (store, w)) /\
            analysis_entrypoint toISOString commodity (store, w)
            = (Ok (unknown_commodity available), (store, w))).
  { intros Hnone. unfold price_entrypoint, historical_entrypoint, analysis_entrypoint.
    rewrite Hnone. repeat split. }
  assert (Hall : well_tagged (fst (snd (all_entrypoint toISOString interval (store, w))))).
  { rewrite all_entrypoint_state. unfold cached_bulk.
    apply get_well_tagged; [|exact Hstore]. apply cached_bulk_fits. }
  assert (Hidx : well_tagged (fst (snd (index_entrypoint toISOString (store, w))))).
  { rewrite index_entrypoint_state. unfold cached.
    apply get_well_tagged; [|exact Hstore].
    apply cached_fits; rewrite Hindex; intros; exact I. }
  assert (Hempty : well_tagged (num := num) ∅).
  { intros key e Hkey. rewrite lookup_empty in Hkey. discriminate Hkey. }
  destruct (prop_get COMMODITIES (normalize commodity)) as [fn|] eqn:Hfn.
  - destruct (Hknown fn eq_refl) as (Hp & Hh & Ha). repeat split; assumption.
  - destruct (Hunknown eq_refl) as (-> & -> & ->). repeat split; assumption.
Qed.

(** What [get] returns for an entrypoint fits the key, given the
    invariant. *)
Ltac fitting Hstore Hkind :=
  unfold bind at 1;
  match goal with
  | |- context [get ?key (external ?f) ?ttl ?st] =>
      let Hd := fresh "Hd" in
      assert (Hd : forall d : CachedValue num,
                fst (get key (external f) ttl st) = Ok d -> fits (kind_of key) d)
        by (apply get_well_tagged; [|exact Hstore];
            apply cached_fits; rewrite Hkind; intros; exact I);
      rewrite Hkind in Hd;
      let data := fresh "data" in
      destruct (get key (external f) ttl st) as [[data|?message] ?st']; [|exact I];
      specialize (Hd data eq_refl); destruct data; try contradiction
  end.

(** X16. On a store that has the invariant the outputs have their shape.
    The bulk entrypoint never rejects, whatever the provider does, and its
    [count] is always 10; a price output spreads a price, an index output
    an index value, an analysis output an analysis, and the [dataPoints]
    of a history output is the length of its [history]. *)
Theorem well_tagged_outputs (commodity : string) (interval : Interval) (limit : Z)
    (store : gmap string (CacheEntry (CachedValue num))) (w : W) :
  well_tagged store ->
  (exists (r : gmap string (PriceOrError num)) (st' : State W (CachedValue num)),
     all_entrypoint toISOString interval (store, w)
     = (Ok (bulk_output (bulk_value r) 10 (interval_name interval)
              (toISOString (Date_now (snd st')))), st') /\
     forall c : string, is_Some (r !! c) <-> In c bulk_symbols) /\
  match fst (price_entrypoint toISOString commodity interval (store, w)) with
  | Ok (unknown_commodity _) | Ok no_data | Throw _ => True
  | Ok (price_output (price_value _) _ _ _ _) => True
  | Ok _ => False
  end /\
  match fst (historical_entrypoint toISOString commodity interval limit (store, w)) with
  | Ok (unknown_commodity _) | Ok no_data | Throw _ => True
  | Ok (historical_output _ _ (Some n) (history_value h) _) => n = length h
  | Ok _ => False
  end /\
  match fst (index_entrypoint toISOString (store, w)) with
  | Ok no_data | Throw _ => True
  | Ok (stamped_output (aggregate_value _) _) => True
  | Ok _ => False
  end /\
  match fst (analysis_entrypoint toISOString commodity (store, w)) with
  | Ok (unknown_commodity _) | Ok no_data | Throw _ => True
  | Ok (stamped_output (analysis_value _) _) => True
  | Ok _ => False
  end.
Proof.
  intros Hstore.
  pose proof (kind_of_templates (normalize commodity) interval limit)
    as (Hprice & Hbulk & Hhistory & Hindex & Hanalysis).
  split; [|split; [|split; [|split]]].
  - unfold all_entrypoint, cached_bulk. unfold bind at 1.
    pose proof (get_well_tagged (all_key interval)
                  (bind (fetchAllCommodities interval) (fun r => ret (bulk_value r)))
                  120000 store w (cached_bulk_fits interval w) Hstore) as [_ Hd].
    assert (Hok : exists d, fst (get (all_key interval)
                                   (external (bind (fetchAllCommodities (num := num) interval)
                                                (fun r => ret (bulk_value r))))
                                   120000 (store, w)) = Ok d).
    { rewrite get_external.
      destruct (is_fresh_dec store (all_key interval) (Date_now w)) as [(e & Hkey & _)|_].
      - rewrite Hkey. eauto.
      - destruct (fetchAllCommodities_keys interval w) as (results & Hrun & _).
        unfold bind, ret. rewrite Hrun. eauto. }
    destruct Hok as [d Hok]. specialize (Hd d Hok). rewrite Hbulk in Hd.
    destruct (get _ _ _ (store, w)) as [r st']. cbn in Hok. subst r.
    destruct d as [|p|r|h|v|a]; try contradiction. cbn in Hd.
    exists r, st'. split; [|exact Hd].
    cbn [keys_count]. rewrite (ten_entries r Hd). reflexivity.
  - unfold price_entrypoint.
    destruct (prop_get COMMODITIES (normalize commodity)) as [fn|] eqn:Hfn; [|exact I].
    rewrite (catalog_function_nonempty _ _ Hfn). unfold cached.
    fitting Hstore Hprice; run_tail; exact I.
  - unfold historical_entrypoint.
    destruct (prop_get COMMODITIES (normalize commodity)) as [fn|] eqn:Hfn; [|exact I].
    rewrite (catalog_function_nonempty _ _ Hfn). unfold cached.
    fitting Hstore Hhistory; run_tail; exact I.
  - unfold index_entrypoint, cached.
    fitting Hstore Hindex; run_tail; exact I.
  - unfold analysis_entrypoint.
    destruct (prop_get COMMODITIES (normalize commodity)) as [fn|] eqn:Hfn; [|exact I].
    rewrite (catalog_function_nonempty _ _ Hfn). unfold cached.
    fitting Hstore Hanalysis; run_tail; exact I.
Qed.

(** X17. A symbol that [COMMODITIES] does not know is answered on the
    spot.  The fetchers return [null] and the three entrypoints that take a
    commodity answer [Unknown commodity] with the ten commodity keys, [all]
    left out although it is a key they accept: no request is made and
    nothing is stored. *)
Theorem unknown_symbol_is_answered_locally (commodity : string) (interval : Interval)
    (limit : Z) (st : State W (CachedValue num)) (w : W) :
  unknown_symbol (normalize commodity) ->
  let answer : Output num :=
    unknown_commodity
      ["wti"; "brent"; "natural_gas"; "copper"; "aluminum";
       "wheat"; "corn"; "coffee"; "cotton"; "sugar"] in
  price_entrypoint toISOString commodity interval st = (Ok answer, st) /\
  historical_entrypoint toISOString commodity interval limit st = (Ok answer, st) /\
  analysis_entrypoint toISOString commodity st = (Ok answer, st) /\
  fetchCommodity (num := num) (normalize commodity) interval w = (Ok None, w) /\
  fetchHistorical (num := num) (normalize commodity) interval limit w = (Ok None, w) /\
  fetchAnalysis (num := num) (normalize commodity) w = (Ok None, w).
Proof.
  intros [Hnone _] answer.
  unfold price_entrypoint, historical_entrypoint, analysis_entrypoint,
    fetchCommodity, fetchHistorical, fetchAnalysis.
  rewrite toLowerCase_normalize, Hnone. repeat split.
Qed.

End EntrypointFacts.

(** ** Further runs against scripted providers *)

Section FurtherRuns.
Import Scripted Cache.

(** The log of the scripted world observes the requests, and its clock
    the pauses. *)
Lemma scripted_logs : logs_requests (W := world) requests.
Proof. split; intros; reflexivity. Defined.

Lemma scripted_pauses : counts_pauses (W := world) clock.
Proof. split; intros; reflexivity. Defined.

Lemma empty_store_well_tagged : well_tagged (num := float) ∅.
Proof. intros key e Hkey. rewrite lookup_empty in Hkey. discriminate Hkey. Defined.

(** X1 on a provider out of reach: every fetcher has made its one request
    when it rejects. *)
Lemma single_symbol_requests_offline :
  let w := start (unreachable "getaddrinfo ENOTFOUND") in
  requests (snd (fetchCommodity (num := float) "Brent" weekly w))
  = requests w ++ [query_url "BRENT" "weekly"] /\
  requests (snd (fetchHistorical (num := float) "Brent" weekly 12 w))
  = requests w ++ [query_url "BRENT" "weekly"] /\
  requests (snd (fetchAnalysis (num := float) "Brent" w))
  = requests w ++ [query_url "BRENT" "daily"] /\
  requests (snd (fetchCommoditiesIndex (num := float) w))
  = requests w ++ [query_url "ALL_COMMODITIES" "monthly"].
Proof.
  exact (single_symbol_requests (num := float) requests "Brent" "BRENT" weekly 12
           (start (unreachable "getaddrinfo ENOTFOUND")) scripted_logs eq_refl).
Defined.

(** X2 on a provider out of reach: the ten weekly requests, in order. *)
Lemma bulk_requests_offline :
  let w := start (unreachable "getaddrinfo ENOTFOUND") in
  requests (snd (fetchAllCommodities (num := float) weekly w))
  = requests w ++ map (fun fn => query_url fn "weekly")
                    ["WTI"; "BRENT"; "NATURAL_GAS"; "COPPER"; "ALUMINUM";
                     "WHEAT"; "CORN"; "COFFEE"; "COTTON"; "SUGAR"].
Proof.
  exact (bulk_requests_in_order (num := float) requests weekly
           (start (unreachable "getaddrinfo ENOTFOUND")) scripted_logs).
Defined.

(** X3 on the scripted clock, which the timers advance. *)
Lemma bulk_pauses_offline :
  let w := start (unreachable "getaddrinfo ENOTFOUND") in
  clock (snd (fetchAllCommodities (num := float) daily w)) = clock w + 2000 /\
  clock (snd (fetchCommodity (num := float) "sugar" daily w)) = clock w /\
  clock (snd (fetchHistorical (num := float) "sugar" daily 12 w)) = clock w /\
  clock (snd (fetchAnalysis (num := float) "sugar" w)) = clock w /\
  clock (snd (fetchCommoditiesIndex (num := float) w)) = clock w.
Proof.
  exact (bulk_pauses (num := float) clock "sugar" daily 12
           (start (unreachable "getaddrinfo ENOTFOUND")) scripted_pauses).
Defined.

(** X6 on the eight closes, with a limit of 3. *)
Lemma historical_truncation_week :
  let w := start (serving "WTI" week) in
  let w' := asked "WTI" w in
  let latest := point "2025-01-01" "110" in
  let series := map (point "2025-01-01") week in
  let n := Z.of_nat (length series) in
  exists h : list (HistoricalPoint.t float),
    fetchHistorical "wti" daily 3 w = (Ok (Some h), w') /\
    h = map historical_point (firstn (length h) series) /\
    (0 <= 3 -> Z.of_nat (length h) = Z.min 3 n) /\
    (3 < 0 -> Z.of_nat (length h) = Z.max (n + 3) 0) /\
    (3 = 0 -> h = []) /\
    (0 < 3 ->
       exists older : list (HistoricalPoint.t float),
         h = HistoricalPoint.mk (RawSeriesPoint.date latest)
               (CommodityPrice.price (latest_price (num := float) (payload "WTI" week) latest))
             :: older).
Proof.
  apply (historical_truncation (num := float) "wti" "WTI" daily 3
           (payload "WTI" week) (point "2025-01-01" "110")
           (map (point "2025-01-01") (tl week))
           (start (serving "WTI" week)) (asked "WTI" (start (serving "WTI" week)))).
  - reflexivity.
  - vm_compute. reflexivity.
  - reflexivity.
Defined.

(** X8 on the NaN of the doubles. *)
Lemma not_a_number_is_labelled_nan :
  getVolatilityLevel (Some nan) = high /\
  (forall y : float,
     getSignal nan (Some y) = at_ma /\ getSignal y (Some nan) = at_ma /\
     getTrend (Some nan) (Some y) = neutral /\ getTrend (Some y) (Some nan) = neutral).
Proof. exact (not_a_number_is_labelled nan eq_refl). Defined.

(** X12 on two keys of the catalog. *)
Lemma cache_keys_of_two_commodities :
  (price_key "natural_gas" daily = price_key "corn" weekly ->
     "natural_gas" = "corn" /\ daily = weekly) /\
  (historical_key "natural_gas" daily 12 = historical_key "corn" weekly 30 ->
     "natural_gas" = "corn" /\ daily = weekly /\ 12 = 30) /\
  (analysis_key "natural_gas" = analysis_key "corn" -> "natural_gas" = "corn") /\
  (all_key daily = all_key weekly -> daily = weekly) /\
  (forall (key fn : string), prop_get COMMODITIES key = Some fn -> no_colon key = true) /\
  (forall key : string,
     kind_of (price_key key daily) = price_kind /\
     kind_of (all_key daily) = bulk_kind /\
     kind_of (historical_key key daily 12) = history_kind /\
     kind_of index_key = aggregate_kind /\
     kind_of (analysis_key key) = analysis_kind).
Proof.
  exact (cache_keys_tell_requests_apart "natural_gas" "corn" daily weekly 12 30
           eq_refl eq_refl).
Defined.

(** X13 on an empty cache and a provider that serves copper. *)
Lemma entrypoint_requests_copper :
  let w := start (serving "COPPER" week) in
  let store : gmap string (CacheEntry (CachedValue float)) := ∅ in
  let asks (key : string) (urls : list string) (st' : State world (CachedValue float)) :=
    requests (snd st')
    = if is_fresh_dec store key (Date_now w) then requests w else requests w ++ urls in
  asks (price_key (normalize "Copper") weekly)
    [query_url "COPPER" (interval_name weekly)]
    (snd (price_entrypoint pretty "Copper" weekly (store, w))) /\
  asks (historical_key (normalize "Copper") weekly 12)
    [query_url "COPPER" (interval_name weekly)]
    (snd (historical_entrypoint pretty "Copper" weekly 12 (store, w))) /\
  asks (analysis_key (normalize "Copper"))
    [query_url "COPPER" "daily"]
    (snd (analysis_entrypoint pretty "Copper" (store, w))) /\
  asks index_key
    [query_url "ALL_COMMODITIES" "monthly"]
    (snd (index_entrypoint pretty (store, w))) /\
  asks (all_key weekly)
    (map (fun fn => query_url fn (interval_name weekly))
       ["WTI"; "BRENT"; "NATURAL_GAS"; "COPPER"; "ALUMINUM";
        "WHEAT"; "CORN"; "COFFEE"; "COTTON"; "SUGAR"])
    (snd (all_entrypoint pretty weekly (store, w))).
Proof.
  exact (entrypoint_requests (num := float) pretty requests "Copper" "COPPER" weekly 12
           ∅ (start (serving "COPPER" week)) scripted_logs eq_refl).
Defined.

(** X14 on a provider that answers every request with a note. *)
Lemma no_data_is_cached_note :
  let busy := answering (mk_response 503 (Json note)) in
  let w := start busy in
  let store : gmap string (CacheEntry (CachedValue float)) := ∅ in
  let w1 := mk_world 0 busy [query_url "NATURAL_GAS" "daily"] in
  let key := normalize "Natural Gas" in
  let holding (k : string) (ttl : Z) := <[k := mk_entry null_value (Date_now w1) ttl]> store in
  (~ is_fresh store (price_key key daily) (Date_now w) ->
   fetchCommodity (num := float) key daily w = (Ok None, w1) ->
   price_entrypoint pretty "Natural Gas" daily (store, w)
   = (Ok no_data, (holding (price_key key daily) 60000, w1)) /\
   forall later : world,
     Date_now later - Date_now w1 < 60000 ->
     price_entrypoint pretty "Natural Gas" daily (holding (price_key key daily) 60000, later)
     = (Ok no_data, (holding (price_key key daily) 60000, later))) /\
  (~ is_fresh store (historical_key key daily 12) (Date_now w) ->
   fetchHistorical (num := float) key daily 12 w = (Ok None, w1) ->
   historical_entrypoint pretty "Natural Gas" daily 12 (store, w)
   = (Ok no_data, (holding (historical_key key daily 12) 300000, w1)) /\
   forall later : world,
     Date_now later - Date_now w1 < 300000 ->
     historical_entrypoint pretty "Natural Gas" daily 12
       (holding (historical_key key daily 12) 300000, later)
     = (Ok no_data, (holding (historical_key key daily 12) 300000, later))) /\
  (~ is_fresh store (analysis_key key) (Date_now w) ->
   fetchAnalysis (num := float) key w = (Ok None, w1) ->
   analysis_entrypoint pretty "Natural Gas" (store, w)
   = (Ok no_data, (holding (analysis_key key) 120000, w1)) /\
   forall later : world,
     Date_now later - Date_now w1 < 120000 ->
     analysis_entrypoint pretty "Natural Gas" (holding (analysis_key key) 120000, later)
     = (Ok no_data, (holding (analysis_key key) 120000, later))).
Proof.
  exact (no_data_is_cached (num := float) pretty "Natural Gas" "NATURAL_GAS" daily 12 ∅
           (start (answering (mk_response 503 (Json note))))
           (mk_world 0 (answering (mk_response 503 (Json note)))
              [query_url "NATURAL_GAS" "daily"])
           eq_refl).
Defined.

(** X15 on the empty store of a fresh process. *)
Lemma fresh_process_keeps_store_well_tagged :
  let w := start (serving "WTI" week) in
  let store : gmap string (CacheEntry (CachedValue float)) := ∅ in
  well_tagged (fst (snd (price_entrypoint pretty "wti" daily (store, w)))) /\
  well_tagged (fst (snd (all_entrypoint pretty daily (store, w)))) /\
  well_tagged (fst (snd (historical_entrypoint pretty "wti" daily 12 (store, w)))) /\
  well_tagged (fst (snd (index_entrypoint pretty (store, w)))) /\
  well_tagged (fst (snd (analysis_entrypoint pretty "wti" (store, w)))) /\
  well_tagged (num := float) ∅.
Proof.
  exact (entrypoints_keep_store_well_tagged (num := float) pretty "wti" daily 12 ∅
           (start (serving "WTI" week)) empty_store_well_tagged).
Defined.

(** X16 on the empty store and a provider out of reach: the bulk
    entrypoint still answers, with a count of 10. *)
Lemma well_tagged_outputs_offline :
  let w := start (unreachable "getaddrinfo ENOTFOUND") in
  let store : gmap string (CacheEntry (CachedValue float)) := ∅ in
  (exists (r : gmap string (PriceOrError float)) (st' : State world (CachedValue float)),
     all_entrypoint pretty daily (store, w)
     = (Ok (bulk_output (bulk_value r) 10 (interval_name daily)
              (pretty (Date_now (snd st')))), st') /\
     forall c : string, is_Some (r !! c) <-> In c bulk_symbols) /\
  match fst (price_entrypoint pretty "wti" daily (store, w)) with
  | Ok (unknown_commodity _) | Ok no_data | Throw _ => True
  | Ok (price_output (price_value _) _ _ _ _) => True
  | Ok _ => False
  end /\
  match fst (historical_entrypoint pretty "wti" daily 12 (store, w)) with
  | Ok (unknown_commodity _) | Ok no_data | Throw _ => True
  | Ok (historical_output _ _ (Some n) (history_value h) _) => n = length h
  | Ok _ => False
  end /\
  match fst (index_entrypoint pretty (store, w)) with
  | Ok no_data | Throw _ => True
  | Ok (stamped_output (aggregate_value _) _) => True
  | Ok _ => False
  end /\
  match fst (analysis_entrypoint pretty "wti" (store, w)) with
  | Ok (unknown_commodity _) | Ok no_data | Throw _ => True
  | Ok (stamped_output (analysis_value _) _) => True
  | Ok _ => False
  end.
Proof.
  exact (well_tagged_outputs (num := float) pretty "wti" daily 12 ∅
           (start (unreachable "getaddrinfo ENOTFOUND")) empty_store_well_tagged).
Defined.

(** X17 on gold, which the catalog does not list. *)
Lemma unknown_symbol_gold :
  let st : State world (CachedValue float) := (∅, start (unreachable "getaddrinfo ENOTFOUND")) in
  let w := start (unreachable "getaddrinfo ENOTFOUND") in
  let answer : Output float :=
    unknown_commodity
      ["wti"; "brent"; "natural_gas"; "copper"; "aluminum";
       "wheat"; "corn"; "coffee"; "cotton"; "sugar"] in
  price_entrypoint pretty "Gold" daily st = (Ok answer, st) /\
  historical_entrypoint pretty "Gold" daily 12 st = (Ok answer, st) /\
  analysis_entrypoint pretty "Gold" st = (Ok answer, st) /\
  fetchCommodity (num := float) (normalize "Gold") daily w = (Ok None, w) /\
  fetchHistorical (num := float) (normalize "Gold") daily 12 w = (Ok None, w) /\
  fetchAnalysis (num := float) (normalize "Gold") w = (Ok None, w).
Proof.
  apply (unknown_symbol_is_answered_locally (num := float) pretty "Gold" daily 12
           (∅, start (unreachable "getaddrinfo ENOTFOUND"))
           (start (unreachable "getaddrinfo ENOTFOUND"))).
  split; [reflexivity|]. cbn. intuition discriminate.
Defined.

End FurtherRuns.
